(** * Stock analysis dashboard (app.py): model and properties

    The dashboard is one Streamlit script: a cached download of daily
    bars, four pandas_ta indicators appended to the frame, [dropna],
    two charts, a performance summary and an export.  The script is
    embedded here as functions over explicit values:

    - a frame cell is a [float]: a double idealised as an exact
      rational, with NaN and the infinities kept apart;
    - a raised Python exception is a value of [py];
    - what the script shows is the list of the elements it emits;
    - the cache of [st.cache_data] is a finite map threaded through the
      calls, next to the log of the requests sent to the provider. *)

From Stdlib Require Import QArith Qabs Lqa ZArith Lia.
From stdpp Require Import base option list sorting strings pretty gmap.

(** ** Python results *)

Module Py.

(** A raised exception: its class, the text [str(e)] gives, and whether
    the class derives from [Exception] (KeyboardInterrupt, SystemExit
    and GeneratorExit derive from BaseException only). *)
Record exn := Exn {
  exn_class : string;
  exn_text : string;
  is_Exception : bool
}.

Inductive py (A : Type) : Type :=
| Return (a : A)
| Raise (e : exn).
Arguments Return {A} a.
Arguments Raise {A} e.

Definition bind {A B} (m : py A) (k : A → py B) : py B :=
  match m with
  | Return a => k a
  | Raise e => Raise e
  end.

Definition IndexError (text : string) : exn :=
  Exn "IndexError" text true.

(** [data[key]] on a frame without that column: the text of a KeyError
    is the key in quotes. *)
Definition KeyError (key : string) : exn :=
  Exn "KeyError" ("'" +:+ key +:+ "'") true.

End Py.
Export Py.

(** ** Floating-point cells *)

Module Float.

(** A double, without rounding, without overflow and without the sign
    of zero: arithmetic on finite cells is exact. *)
Inductive float : Type :=
| NaN
| Inf (negative : bool)
| Fin (q : Q).

Definition isna (x : float) : bool :=
  match x with NaN => true | _ => false end.

Definition notna (x : float) : bool := negb (isna x).

Definition Qneg_bool (q : Q) : bool := negb (Qle_bool 0 q).

Definition fneg (x : float) : float :=
  match x with
  | NaN => NaN
  | Inf s => Inf (negb s)
  | Fin q => Fin (- q)
  end.

Definition fadd (x y : float) : float :=
  match x, y with
  | NaN, _ | _, NaN => NaN
  | Inf s, Inf t => if Bool.eqb s t then Inf s else NaN
  | Inf s, Fin _ | Fin _, Inf s => Inf s
  | Fin a, Fin b => Fin (a + b)
  end.

Definition fsub (x y : float) : float := fadd x (fneg y).

Definition fmul (x y : float) : float :=
  match x, y with
  | NaN, _ | _, NaN => NaN
  | Inf s, Inf t => Inf (xorb s t)
  | Inf s, Fin q | Fin q, Inf s =>
      if Qeq_bool q 0 then NaN else Inf (xorb s (Qneg_bool q))
  | Fin a, Fin b => Fin (a * b)
  end.

(** numpy division: a zero divisor gives an infinity, or NaN for 0/0;
    nothing is raised. *)
Definition fdiv (x y : float) : float :=
  match x, y with
  | NaN, _ | _, NaN => NaN
  | Inf _, Inf _ => NaN
  | Inf s, Fin q => Inf (xorb s (Qneg_bool q))
  | Fin _, Inf _ => Fin 0
  | Fin a, Fin b =>
      if Qeq_bool b 0
      then (if Qeq_bool a 0 then NaN else Inf (Qneg_bool a))
      else Fin (a / b)
  end.

(** Equality of cells up to the representation of a rational. *)
Definition feq (x y : float) : Prop :=
  match x, y with
  | NaN, NaN => True
  | Inf s, Inf t => s = t
  | Fin a, Fin b => a == b
  | _, _ => False
  end.

(** A square root kept exact: [Sqrt x] stands for the square root of
    [x].  [fsqrt] is the square root of a double: NaN below zero. *)
Record radical := Sqrt { radicand : float }.

Definition fsqrt (x : float) : radical :=
  match x with
  | NaN => Sqrt NaN
  | Inf s => if s then Sqrt NaN else Sqrt (Inf false)
  | Fin q => if Qneg_bool q then Sqrt NaN else Sqrt (Fin q)
  end.

Definition rmul (x y : radical) : radical :=
  Sqrt (fmul (radicand x) (radicand y)).

End Float.
Export Float.

(** ** pandas: the part of DataFrame and Series the script uses *)

Module Pandas.

(** One row of the frame yfinance returns: the date is the index, the
    five columns are cells. *)
Record Bar := mkBar {
  date : Z;
  Open : float;
  High : float;
  Low : float;
  Close : float;
  Volume : float
}.

(** Column labels: flat names, or the two-level (field, ticker) labels
    yfinance may return. *)
Inductive col_index : Type :=
| Index (names : list string)
| MultiIndex (names : list (string * string)).

Definition is_MultiIndex (c : col_index) : bool :=
  match c with MultiIndex _ => true | Index _ => false end.

(** [columns.droplevel(1)] *)
Definition droplevel_1 (c : col_index) : col_index :=
  match c with
  | MultiIndex names => Index (fst <$> names)
  | Index names => Index names
  end.

Record DataFrame := mkFrame {
  columns : col_index;
  bars : list Bar
}.

(** [data.empty] *)
Definition empty (data : DataFrame) : bool :=
  match bars data with [] => true | _ => false end.

(** [s.iloc[i]]: a negative position counts from the end; a position
    outside the series raises IndexError. *)
Definition iloc {A} (s : list A) (i : Z) : py A :=
  let n := Z.of_nat (length s) in
  let j := if (i <? 0)%Z then (i + n)%Z else i in
  if ((0 <=? j) && (j <? n))%Z
  then match s !! Z.to_nat j with
       | Some a => Return a
       | None => Raise (IndexError "single positional indexer is out-of-bounds")
       end
  else Raise (IndexError "single positional indexer is out-of-bounds").

(** [s.pct_change()]: NaN on the first row, then [s[i] / s[i-1] - 1].
    The script calls it after [dropna], on a column without NaN, where
    the padding of missing cells pandas may do first changes nothing. *)
Fixpoint pct_change_from (prev : float) (s : list float) : list float :=
  match s with
  | [] => []
  | x :: s' => fsub (fdiv x prev) (Fin 1) :: pct_change_from x s'
  end.

Definition pct_change (s : list float) : list float :=
  match s with
  | [] => []
  | x :: s' => NaN :: pct_change_from x s'
  end.

Definition fsum (s : list float) : float := foldr fadd (Fin 0) s.

Definition of_nat (n : nat) : float := Fin (inject_Z (Z.of_nat n)).

(** [s.std()]: NaN cells are skipped; sample standard deviation
    (one degree of freedom removed), NaN with fewer than two values. *)
Definition std (s : list float) : radical :=
  let values := List.filter notna s in
  let count := length values in
  if (count <=? 1)%nat then Sqrt NaN
  else
    let avg := fdiv (fsum values) (of_nat count) in
    let sqr := (λ x, fmul (fsub x avg) (fsub x avg)) <$> values in
    fsqrt (fdiv (fsum sqr) (of_nat (count - 1))).

End Pandas.
Export Pandas.

(** ** pandas_ta: the three indicators *)

Module Indicators.

Local Open Scope Q_scope.

Definition Qsum (xs : list Q) : Q := foldr Qplus 0 xs.

Definition Qnat (n : nat) : Q := inject_Z (Z.of_nat n).

Definition mean (xs : list Q) : Q := Qsum xs / Qnat (length xs).

(** Modelled from the spec: the body of pandas_ta's [sma] is not part of
    the repository.  Section 4.2: at row i (from 0) the value is defined
    only when i >= w-1 and is the arithmetic mean of the closes at
    indices [i-w+1, i].  A window is a positive integer (section 3);
    with w = 0 no row gets a value. *)
Definition sma (w : nat) (closes : list Q) : list float :=
  imap (λ i _,
          if ((w =? 0) || (i + 1 <? w))%nat then NaN
          else Fin (mean (take w (drop (i + 1 - w) closes))))
       closes.

(** [EMA[i] = alpha * close[i] + (1 - alpha) * EMA[i-1]], row after row. *)
Fixpoint ema_from (alpha prev : Q) (closes : list Q) : list Q :=
  match closes with
  | [] => []
  | c :: rest =>
      let e := alpha * c + (1 - alpha) * prev in
      e :: ema_from alpha e rest
  end.

Definition smoothing (w : nat) : Q := 2 / (Qnat w + 1).

(** Modelled from the spec: the body of pandas_ta's [ema] is not part of
    the repository.  Section 4.2: the smoothing factor is 2/(w+1); the
    first value sits at the index where SMA(w) is first defined and is
    that SMA; later values follow the recurrence; rows before the seed
    are undefined.  A series shorter than the window has every row
    undefined. *)
Definition ema (w : nat) (closes : list Q) : list float :=
  if ((w =? 0) || (length closes <? w))%nat
  then replicate (length closes) NaN
  else
    let seed := mean (take w closes) in
    replicate (w - 1) NaN
      ++ Fin seed :: (Fin <$> ema_from (smoothing w) seed (drop w closes)).

(** Day-over-day differences: [diffs closes !! k] is
    [close[k+1] - close[k]]. *)
Definition diffs (closes : list Q) : list Q :=
  zip_with (λ prev cur, cur - prev) closes (tail closes).

Definition gain (d : Q) : Q := if Qle_bool 0 d then d else 0.

Definition loss (d : Q) : Q := if Qle_bool 0 d then 0 else - d.

(** [avg[i] = (avg[i-1] * (w-1) + x[i]) / w], row after row. *)
Fixpoint wilder (w prev : Q) (xs : list Q) : list Q :=
  match xs with
  | [] => []
  | x :: rest =>
      let a := (prev * (w - 1) + x) / w in
      a :: wilder w a rest
  end.

(** The running average of [xs] from its w-th element on: the mean of
    the first w elements, then Wilder's recurrence. *)
Definition averages (w : nat) (xs : list Q) : list Q :=
  let seed := mean (take w xs) in
  seed :: wilder (Qnat w) seed (drop w xs).

Definition avg_gain (w : nat) (closes : list Q) : list Q :=
  averages w (gain <$> diffs closes).

Definition avg_loss (w : nat) (closes : list Q) : list Q :=
  averages w (loss <$> diffs closes).

Definition rsi_value (g l : Q) : Q :=
  if Qeq_bool l 0 then 100 else 100 - 100 / (1 + g / l).

(** Modelled from the spec: the body of pandas_ta's [rsi] is not part of
    the repository.  Section 4.2: average gain and average loss over the
    first w differences seed the averages, later ones follow Wilder's
    recurrence; RSI = 100 - 100/(1 + avgGain/avgLoss), and 100 when the
    average loss is 0; rows before index w are undefined. *)
Definition rsi (w : nat) (closes : list Q) : list float :=
  if ((w =? 0) || (length (diffs closes) <? w))%nat
  then replicate (length closes) NaN
  else
    replicate w NaN
      ++ (Fin <$> zip_with rsi_value (avg_gain w closes) (avg_loss w closes)).

(** The closes of a column, when none is missing or infinite. *)
Definition finite_values (col : list float) : option (list Q) :=
  mapM (λ x, match x with Fin q => Some q | _ => None end) col.

(** Modelled from the spec: an indicator reads the close column of the
    frame.  The Series of section 3 has every close present; on a
    column with a missing close the spec gives no value, and every row
    is left undefined. *)
Definition on_closes (f : list Q → list float) (col : list float)
  : list float :=
  match finite_values col with
  | Some closes => f closes
  | None => replicate (length col) NaN
  end.

End Indicators.
Export Indicators.

(** ** Streamlit: what a script run shows *)

Module Streamlit.

Inductive trace : Type :=
| Candlestick (x : list Z) (open high low close : list float) (name : string)
| Scatter (x : list Z) (y : list float) (name : string).

Record figure := mkFigure {
  traces : list trace;
  hlines : list Q;
  title : string
}.

(** A metric shows a formatted number: [f"${x:,.2f}"] or [f"{x:.2%}"]. *)
Inductive metric_value : Type :=
| Dollars (x : float)
| Percent (x : float)
| PercentSqrt (x : radical).

Inductive element (Table : Type) : Type :=
| st_info (body : string)
| st_warning (body : string)
| st_error (body : string)
| st_header (body : string)
| st_plotly_chart (fig : figure)
| st_metric (label : string) (value : metric_value)
| st_dataframe (data : Table)
| st_download_button (label : string) (data : Table)
    (ticker : string) (start_date end_date : Z).
Arguments st_info {Table} body.
Arguments st_warning {Table} body.
Arguments st_error {Table} body.
Arguments st_header {Table} body.
Arguments st_plotly_chart {Table} fig.
Arguments st_metric {Table} label value.
Arguments st_dataframe {Table} data.
Arguments st_download_button {Table} label data ticker start_date end_date.

(** A piece of script: the elements it has shown, and how it ended. *)
Definition script (Table A : Type) : Type := list (element Table) * py A.

Definition ret {T A} (a : A) : script T A := ([], Return a).

Definition show {T} (e : element T) : script T unit := ([e], Return tt).

Definition lift {T A} (m : py A) : script T A := ([], m).

Definition sbind {T A B} (m : script T A) (k : A → script T B) : script T B :=
  match m with
  | (out, Return a) => let '(out', r) := k a in (out ++ out', r)
  | (out, Raise e) => (out, Raise e)
  end.

(** [try: body / except Exception as e: handler e] *)
Definition try_except {T A} (body : script T A) (handler : exn → script T A)
  : script T A :=
  match body with
  | (out, Return a) => (out, Return a)
  | (out, Raise e) =>
      if is_Exception e
      then let '(out', r) := handler e in (out ++ out', r)
      else (out, Raise e)
  end.

End Streamlit.
Export Streamlit.

Notation "'let*' x ':=' m 'in' k" := (sbind m (λ x, k))
  (at level 10, x name, m at level 100, k at level 200, only parsing).
Notation "m ';;' k" := (sbind m (λ _, k))
  (at level 100, k at level 200, right associativity, only parsing).

(** ** The script *)

Module App.

(** The sidebar: the ticker is already upper-cased; dates are day
    numbers. *)
Record sidebar := mkSidebar {
  ticker : string;
  start_date : Z;
  end_date : Z;
  short_ma : nat;
  long_ma : nat;
  ema_period : nat;
  rsi_period : nat;
  run_button : bool
}.

(** The indicator functions of pandas_ta, each from a window and the
    close column to the column it appends; and, for each, whether it
    appends a column at all: an indicator that returns nothing leaves
    the frame without its column. *)
Record pandas_ta := mkTa {
  ta_sma : nat → list float → list float;
  ta_ema : nat → list float → list float;
  ta_rsi : nat → list float → list float;
  sma_appended : nat → list float → bool;
  ema_appended : nat → list float → bool;
  rsi_appended : nat → list float → bool
}.

(** A row of the frame once the four columns are appended. *)
Record Row := mkRow {
  bar : Bar;
  SMA_short : float;
  SMA_long : float;
  EMA : float;
  RSI : float
}.

(** An appended column is aligned on the index of the frame: a row the
    column has no value for gets NaN. *)
Definition at_row (col : list float) (i : nat) : float :=
  default NaN (col !! i).

(** Lines 69-72: the four [data.ta.*(length=..., append=True)], as the
    rows with the cells of the four columns.  The cells of a column
    that was not appended are not in the frame: [appended] tells which
    columns are, and what follows reads no other. *)
Definition append_indicators (ta : pandas_ta) (cfg : sidebar)
    (data : list Bar) : list Row :=
  let close := Close <$> data in
  let sma_short := ta_sma ta (short_ma cfg) close in
  let sma_long := ta_sma ta (long_ma cfg) close in
  let ema := ta_ema ta (ema_period cfg) close in
  let rsi := ta_rsi ta (rsi_period cfg) close in
  imap (λ i b, mkRow b (at_row sma_short i) (at_row sma_long i)
                 (at_row ema i) (at_row rsi i))
       data.

Definition bar_notna (b : Bar) : bool :=
  notna (Open b) && notna (High b) && notna (Low b)
  && notna (Close b) && notna (Volume b).

Definition indicators_notna (r : Row) : bool :=
  notna (SMA_short r) && notna (SMA_long r) && notna (EMA r) && notna (RSI r).

Definition row_notna (r : Row) : bool :=
  bar_notna (bar r) && indicators_notna r.

(** Line 73: [data.dropna(inplace=True)] keeps the rows without NaN. *)
Definition dropna (data : list Row) : list Row :=
  List.filter row_notna data.

(** The indicator columns the frame has after lines 69-72. *)
Record columns_appended := mkAppended {
  has_sma_short : bool;
  has_sma_long : bool;
  has_ema : bool;
  has_rsi : bool
}.

Definition appended (ta : pandas_ta) (cfg : sidebar) (data : list Bar)
  : columns_appended :=
  let close := Close <$> data in
  mkAppended (sma_appended ta (short_ma cfg) close)
             (sma_appended ta (long_ma cfg) close)
             (ema_appended ta (ema_period cfg) close)
             (rsi_appended ta (rsi_period cfg) close).

Definition all_appended (cols : columns_appended) : bool :=
  has_sma_short cols && has_sma_long cols && has_ema cols && has_rsi cols.

(** A cell counts for [dropna] when its column is in the frame. *)
Definition cell_notna (in_frame : bool) (x : float) : bool :=
  negb in_frame || notna x.

Definition row_notna_in (cols : columns_appended) (r : Row) : bool :=
  bar_notna (bar r)
  && (cell_notna (has_sma_short cols) (SMA_short r)
      && cell_notna (has_sma_long cols) (SMA_long r)
      && cell_notna (has_ema cols) (EMA r)
      && cell_notna (has_rsi cols) (RSI r)).

(** Line 73 on the frame as it is: [dropna] over the columns it has. *)
Definition dropna_in (cols : columns_appended) (data : list Row) : list Row :=
  List.filter (row_notna_in cols) data.

(** [data[key]], for what the script needs of it: KeyError when the
    frame has no such column. *)
Definition getitem (in_frame : bool) (key : string) : py unit :=
  if in_frame then Return tt else Raise (KeyError key).

(** The provider behind [yf.download]: its answer to a request may
    depend on the requests made before. *)
Definition request : Type := string * Z * Z.

Definition provider : Type := list request → request → py DataFrame.

(** Lines 21-35. *)
Definition download_data (yf_download : request → py DataFrame)
    (ticker : string) (start_date end_date : Z)
  : script (list Row) (option DataFrame) :=
  try_except
    (let* data := lift (yf_download (ticker, start_date, end_date)) in
     let data :=
       if is_MultiIndex (columns data)
       then mkFrame (droplevel_1 (columns data)) (bars data)
       else data in
     ret (Some data))
    (λ e,
       show (st_error ("Failed to download data for " +:+ ticker
                       +:+ ". Error: " +:+ exn_text e));;
       ret None).

(** What lives across the calls: the cache of [download_data] and the
    requests the provider has received. *)
Record session := mkSession {
  cache : gmap request (option DataFrame);
  requests : list request
}.

(** Modelled from the spec: the decorator [st.cache_data] of line 20 is
    Streamlit's and not part of the repository.  Section 4.1: a hit
    returns the value retrieved before without contacting the provider;
    a miss runs the function, stores what it returns under the key and
    returns it.  A call that ends in an exception returns nothing, and
    nothing is stored for it. *)
Definition cached_download_data (yf : provider) (s : session)
    (ticker : string) (start_date end_date : Z)
  : session * script (list Row) (option DataFrame) :=
  let key := (ticker, start_date, end_date) in
  match cache s !! key with
  | Some data => (s, ret data)
  | None =>
      let run := download_data (yf (requests s)) ticker start_date end_date in
      let asked := requests s ++ [key] in
      match run with
      | (_, Return data) => (mkSession (<[key := data]> (cache s)) asked, run)
      | (_, Raise _) => (mkSession (cache s) asked, run)
      end
  end.

Record Summary := mkSummary {
  start_price : float;
  end_price : float;
  total_return : float;
  annualized_volatility : radical
}.

(** Lines 108-111. *)
Definition performance_summary (data : list Row) : py Summary :=
  let close := (λ r, Close (bar r)) <$> data in
  Py.bind (iloc close 0) (λ start_price,
  Py.bind (iloc close (-1)) (λ end_price,
  let total_return := fsub (fdiv end_price start_price) (Fin 1) in
  let annualized_volatility :=
    rmul (std (pct_change close)) (fsqrt (Fin 252)) in
  Return (mkSummary start_price end_price total_return
            annualized_volatility))).

(** Lines 78-93. *)
Definition fig_price (cfg : sidebar) (data : list Row) : figure :=
  let x := (λ r, date (bar r)) <$> data in
  mkFigure
    [ Candlestick x ((λ r, Open (bar r)) <$> data)
        ((λ r, High (bar r)) <$> data) ((λ r, Low (bar r)) <$> data)
        ((λ r, Close (bar r)) <$> data) "Price";
      Scatter x (SMA_short <$> data) (pretty (short_ma cfg) +:+ "-Period SMA");
      Scatter x (SMA_long <$> data) (pretty (long_ma cfg) +:+ "-Period SMA");
      Scatter x (EMA <$> data) (pretty (ema_period cfg) +:+ "-Period EMA") ]
    []
    (ticker cfg +:+ " Price with Moving Averages").

(** Lines 96-104. *)
Definition fig_rsi (cfg : sidebar) (data : list Row) : figure :=
  mkFigure
    [ Scatter ((λ r, date (bar r)) <$> data) (RSI <$> data) "RSI" ]
    [ 70%Q; 30%Q ]
    (ticker cfg +:+ " Relative Strength Index (RSI)").

(** Lines 75-104: the header and the two charts.  [data[...]] on an
    indicator column the frame does not have raises KeyError at the
    line that reads it: lines 88-90 before the price chart is shown,
    line 97 after. *)
Definition charts (cols : columns_appended) (cfg : sidebar)
    (data : list Row) : script (list Row) unit :=
  show (st_header ("📊 Analysis for " +:+ ticker cfg));;
  lift (getitem (has_sma_short cols) ("SMA_" +:+ pretty (short_ma cfg)));;
  lift (getitem (has_sma_long cols) ("SMA_" +:+ pretty (long_ma cfg)));;
  lift (getitem (has_ema cols) ("EMA_" +:+ pretty (ema_period cfg)));;
  show (st_plotly_chart (fig_price cfg data));;
  lift (getitem (has_rsi cols) ("RSI_" +:+ pretty (rsi_period cfg)));;
  show (st_plotly_chart (fig_rsi cfg data)).

(** Lines 106-129: the summary, the table and the export.  The button
    carries the frame [convert_df_to_csv] serialises. *)
Definition summary_and_export (cfg : sidebar) (data : list Row)
  : script (list Row) unit :=
  show (st_header "📈 Performance Summary");;
  let* s := lift (performance_summary data) in
  show (st_metric "Start Price" (Dollars (start_price s)));;
  show (st_metric "End Price" (Dollars (end_price s)));;
  show (st_metric "Total Return" (Percent (total_return s)));;
  show (st_metric "Annualized Volatility"
          (PercentSqrt (annualized_volatility s)));;
  show (st_header "📄 Data and Export");;
  show (st_dataframe data);;
  show (st_download_button "📥 Download Data as CSV" data
          (ticker cfg) (start_date cfg) (end_date cfg)).

(** Lines 66-131: what the script does with the value [download_data]
    returned. *)
Definition analysis (ta : pandas_ta) (cfg : sidebar)
    (fetched : option DataFrame) : script (list Row) unit :=
  match fetched with
  | Some frame =>
      if negb (empty frame) then
        let cols := appended ta cfg (bars frame) in
        let data := dropna_in cols (append_indicators ta cfg (bars frame)) in
        charts cols cfg data;;
        summary_and_export cfg data
      else
        show (st_error ("Could not fetch data for '" +:+ ticker cfg
          +:+ "'. Please check the ticker symbol and the selected date range."))
  | None =>
      show (st_error ("Could not fetch data for '" +:+ ticker cfg
        +:+ "'. Please check the ticker symbol and the selected date range."))
  end.

(** Lines 59-133: one run of the script. *)
Definition main (yf : provider) (ta : pandas_ta) (s : session)
    (cfg : sidebar) : session * script (list Row) unit :=
  if negb (run_button cfg) then
    (s, show (st_info
      "Enter a stock ticker and click 'Run Analysis' in the sidebar to get started."))
  else if negb (String.eqb (ticker cfg) "") then
    let '(s', fetch) :=
      cached_download_data yf s (ticker cfg) (start_date cfg) (end_date cfg) in
    (s', let* data := fetch in analysis ta cfg data)
  else
    (s, show (st_warning "Please enter a stock ticker to begin the analysis.")).

(** The script run on the indicators as section 4.2 describes them: a
    series shorter than a window still gets the column, every row of it
    undefined. *)
Definition spec_ta : pandas_ta :=
  mkTa (λ w, on_closes (sma w)) (λ w, on_closes (ema w))
       (λ w, on_closes (rsi w))
       (λ _ _, true) (λ _ _, true) (λ _ _, true).

(** The indicators of pandas_ta on a short frame: with a window longer
    than the frame the indicator returns nothing and no column is
    appended (a window of 0 names no column either; the sliders start
    at 5).  Where there is a column, its values are those of section
    4.2. *)
Definition short_frame_ta : pandas_ta :=
  let fits := λ (w : nat) (col : list float),
                ((0 <? w) && (w <=? length col))%nat in
  mkTa (λ w, on_closes (sma w)) (λ w, on_closes (ema w))
       (λ w, on_closes (rsi w))
       fits fits fits.

End App.
Export App.

(** ** What the properties are stated with *)

Module Notions.

(** The position of the first row that has its four indicators; the
    length of the frame when no row has them. *)
Fixpoint first_defined (data : list Row) : nat :=
  match data with
  | [] => 0
  | r :: rest => if indicators_notna r then 0 else S (first_defined rest)
  end.

(** A frame in which a row that has its four indicators is followed
    only by rows that have them. *)
Definition indicators_persist (data : list Row) : Prop :=
  ∀ i j r r', (i ≤ j)%nat → data !! i = Some r → data !! j = Some r' →
    indicators_notna r = true → indicators_notna r' = true.

(** A column in which a defined cell is followed only by defined
    cells. *)
Definition column_persists (col : list float) : Prop :=
  ∀ i j x y, (i ≤ j)%nat → col !! i = Some x → col !! j = Some y →
    notna x = true → notna y = true.

(** A bar whose five cells are the numbers given. *)
Definition day (d : Z) (price : Q) (volume : float) : Bar :=
  mkBar d (Fin price) (Fin price) (Fin price) (Fin price) volume.

End Notions.
Export Notions.

(** ** Charts and reruns *)

Module Reading.

(** The dates a trace is drawn over. *)
Definition trace_x (t : trace) : list Z :=
  match t with
  | Candlestick x _ _ _ _ _ => x
  | Scatter x _ _ => x
  end.

(** The series of values a trace draws. *)
Definition trace_ys (t : trace) : list (list float) :=
  match t with
  | Candlestick _ open high low close _ => [open; high; low; close]
  | Scatter _ y _ => [y]
  end.

(** The first column lines 88-97 read that the frame does not have. *)
Definition missing_in (cols : columns_appended) (cfg : sidebar)
  : option string :=
  if negb (has_sma_short cols) then Some ("SMA_" +:+ pretty (short_ma cfg))
  else if negb (has_sma_long cols) then Some ("SMA_" +:+ pretty (long_ma cfg))
  else if negb (has_ema cols) then Some ("EMA_" +:+ pretty (ema_period cfg))
  else if negb (has_rsi cols) then Some ("RSI_" +:+ pretty (rsi_period cfg))
  else None.

Definition missing_column (ta : pandas_ta) (cfg : sidebar)
    (data : list Bar) : option string :=
  missing_in (appended ta cfg data) cfg.

(** Bars of the days 1 to n, the price changing from day to day. *)
Definition days (n : nat) : list Bar :=
  (λ i, day (Z.of_nat i) (inject_Z (100 + Z.of_nat (i mod 7))) (Fin 500))
    <$> seq 1 n.

(** Streamlit runs the script again on every interaction: the runs of
    a list of sidebar states, one after the other, on the session the
    one before has left. *)
Fixpoint runs (yf : provider) (ta : pandas_ta) (s : session)
    (interactions : list sidebar) : session :=
  match interactions with
  | [] => s
  | cfg :: rest => runs yf ta (main yf ta s cfg).1 rest
  end.

(** A session in which the cached keys are the requested keys, each
    requested once. *)
Definition cache_consistent (s : session) : Prop :=
  NoDup (requests s) ∧ ∀ key, is_Some (cache s !! key) ↔ key ∈ requests s.

End Reading.
Export Reading.

(** * Properties *)

(** The tests [w =? 0] and [a <? w] of an indicator, at a row past the
    warm-up of a window [w > 0]. *)
Ltac past_warmup :=
  repeat match goal with
  | |- context [(?a =? 0)%nat] =>
      replace (a =? 0)%nat with false by (symmetry; apply Nat.eqb_neq; lia)
  | |- context [(?a <? ?b)%nat] =>
      replace (a <? b)%nat with false by (symmetry; apply Nat.ltb_ge; lia)
  end;
  simpl orb; cbv iota.

(** ** The library calls on small inputs *)

Example iloc_from_the_end : iloc [10; 20; 30]%Z (-1) = Return 30%Z.
Proof. reflexivity. Qed.

Example iloc_out_of_bounds :
  iloc [10; 20; 30]%Z 3
  = Raise (IndexError "single positional indexer is out-of-bounds").
Proof. reflexivity. Qed.

Example pct_change_of_three :
  pct_change [Fin 100; Fin 110; Fin 99]
  = [NaN; Fin (10 # 100); Fin (-11 # 110)].
Proof. reflexivity. Qed.

Example std_skips_nan : std [NaN; Fin 1; Fin 3] = Sqrt (Fin (32 # 16)).
Proof. reflexivity. Qed.

Example std_of_one_value : std (pct_change [Fin 100; Fin 110]) = Sqrt NaN.
Proof. reflexivity. Qed.

Example division_by_zero :
  fdiv (Fin 5) (Fin 0) = Inf false ∧ fdiv (Fin 0) (Fin 0) = NaN.
Proof. split; reflexivity. Qed.

Example droplevel_of_yfinance_labels :
  droplevel_1 (MultiIndex [("Close", "AAPL"); ("Open", "AAPL")])
  = Index ["Close"; "Open"].
Proof. reflexivity. Qed.

Example sma_of_five : sma 3 [1; 2; 3; 4; 5]%Q
  = [NaN; NaN; Fin (6 # 3); Fin (9 # 3); Fin (12 # 3)].
Proof. reflexivity. Qed.

Example rsi_of_a_constant_close :
  rsi 3 [7; 7; 7; 7; 7]%Q = [NaN; NaN; NaN; Fin 100; Fin 100].
Proof. reflexivity. Qed.

(** ** Lists *)

Section ListFacts.
Context {A : Type}.

Lemma lookup_imap_Some {B} (f : nat → A → B) (l : list A) (i : nat) (a : A) :
  l !! i = Some a → imap f l !! i = Some (f i a).
Proof. intros H. by rewrite list_lookup_imap, H. Qed.

Lemma take_drop_window (d : A) (l : list A) (a w : nat) :
  (a + w ≤ length l)%nat →
  take w (drop a l) = (λ j, nth j l d) <$> seq a w.
Proof.
  intros Hlen. apply list_eq. intros k.
  rewrite list_lookup_fmap.
  destruct (decide (k < w)%nat) as [Hk|Hk].
  - rewrite lookup_take_lt, lookup_drop by done.
    rewrite lookup_seq_lt by done. simpl.
    destruct (l !! (a + k)%nat) as [x|] eqn:Hx.
    + f_equal. symmetry. by apply nth_lookup_Some with (d := d) in Hx.
    + apply lookup_ge_None in Hx. lia.
  - rewrite lookup_take_ge by lia.
    by rewrite lookup_seq_ge by lia.
Qed.
End ListFacts.

(** ** The simple moving average *)

Lemma length_sma (w : nat) (closes : list Q) :
  length (sma w closes) = length closes.
Proof. unfold sma. apply length_imap. Qed.

Lemma sma_lookup (w : nat) (closes : list Q) (i : nat) :
  (i < length closes)%nat →
  sma w closes !! i =
    Some (if ((w =? 0) || (i + 1 <? w))%nat then NaN
          else Fin (mean (take w (drop (i + 1 - w) closes)))).
Proof.
  intros Hi. destruct (lookup_lt_is_Some_2 closes i Hi) as [c Hc].
  unfold sma. by rewrite (lookup_imap_Some _ _ _ _ Hc).
Qed.

Lemma sma_notna (w : nat) (closes : list Q) (i : nat) (x : float) :
  sma w closes !! i = Some x →
  notna x = true ↔ (0 < w ∧ w ≤ i + 1)%nat.
Proof.
  intros Hx. assert (Hi : (i < length closes)%nat).
  { rewrite <- (length_sma w). by apply lookup_lt_Some in Hx. }
  rewrite sma_lookup in Hx by done. injection Hx as <-.
  destruct (w =? 0)%nat eqn:H0; simpl.
  - apply Nat.eqb_eq in H0. split; [done | lia].
  - apply Nat.eqb_neq in H0. destruct (i + 1 <? w)%nat eqn:H1; simpl.
    + apply Nat.ltb_lt in H1. split; [done | lia].
    + apply Nat.ltb_ge in H1. split; [lia | done].
Qed.

Lemma sma_lookup_seed (w : nat) (closes : list Q) :
  (0 < w)%nat → (w ≤ length closes)%nat →
  sma w closes !! (w - 1)%nat = Some (Fin (mean (take w closes))).
Proof.
  intros Hw Hlen. rewrite sma_lookup by lia. past_warmup.
  by replace (w - 1 + 1 - w)%nat with 0%nat by lia.
Qed.

(** C4.  With a window w > 0, the SMA of row i is defined exactly when
    i >= w-1, and is then the arithmetic mean of the closes at the
    indices i-w+1 .. i; the value at row w-1 is the mean of the first w
    closes. *)
Theorem sma_window_mean (w : nat) (closes : list Q) :
  (0 < w)%nat →
  (∀ i, (i < length closes)%nat →
     ∃ x, sma w closes !! i = Some x
          ∧ (notna x = true ↔ (w - 1 ≤ i)%nat)
          ∧ ((w - 1 ≤ i)%nat →
             x = Fin (Qsum ((λ j, nth j closes 0%Q) <$> seq (i + 1 - w) w)
                      / Qnat w)))
  ∧ ((w ≤ length closes)%nat →
     sma w closes !! (w - 1)%nat = Some (Fin (mean (take w closes)))).
Proof.
  intros Hw. split.
  - intros i Hi. eexists. split; [by apply sma_lookup|].
    split.
    + rewrite (sma_notna w closes i) by by apply sma_lookup.
      lia.
    + intros Hwi. past_warmup. unfold mean.
      rewrite (take_drop_window 0%Q) by lia.
      by rewrite length_fmap, length_seq.
  - intros Hlen. by apply sma_lookup_seed.
Qed.

Lemma sma_window_mean_witness :
  sma 3 [1; 2; 3; 4; 6]%Q !! 3%nat = Some (Fin (Qsum [2; 3; 4]%Q / 3%Q))
  ∧ sma 3 [1; 2; 3; 4; 6]%Q !! 2%nat
    = Some (Fin (mean (take 3 [1; 2; 3; 4; 6]%Q))).
Proof.
  destruct (sma_window_mean 3 [1; 2; 3; 4; 6]%Q) as [H Hseed]; [lia|].
  split.
  - destruct (H 3%nat) as (x & Hx & _ & Hv); [simpl; lia|].
    rewrite Hx. f_equal. apply Hv. lia.
  - apply Hseed. simpl. lia.
Defined.

(** ** The exponential moving average *)

Lemma length_ema_from (alpha prev : Q) (closes : list Q) :
  length (ema_from alpha prev closes) = length closes.
Proof.
  revert prev. induction closes as [|c rest IH]; intros prev; simpl; [done|].
  by rewrite IH.
Qed.

Lemma length_ema (w : nat) (closes : list Q) :
  length (ema w closes) = length closes.
Proof.
  unfold ema. destruct (w =? 0)%nat eqn:H0; simpl.
  { apply length_replicate. }
  destruct (length closes <? w)%nat eqn:H1.
  { apply length_replicate. }
  apply Nat.eqb_neq in H0. apply Nat.ltb_ge in H1.
  rewrite length_app, length_replicate. simpl.
  rewrite length_fmap, length_ema_from, length_drop. lia.
Qed.

(** The value [ema_from] gives at a position, from the one before. *)
Lemma ema_from_step (alpha seed : Q) (closes : list Q) (k : nat) (c : Q) :
  closes !! k = Some c →
  ∃ prev, (seed :: ema_from alpha seed closes) !! k = Some prev
          ∧ ema_from alpha seed closes !! k
            = Some (alpha * c + (1 - alpha) * prev)%Q.
Proof.
  revert seed k. induction closes as [|c0 rest IH]; intros seed k Hk.
  { by rewrite lookup_nil in Hk. }
  destruct k as [|k]; simpl in *.
  - injection Hk as ->. by exists seed.
  - destruct (IH (alpha * c0 + (1 - alpha) * seed)%Q k Hk) as (prev & Hp & Hv).
    exists prev. by split.
Qed.

Lemma ema_lookup_warmup (w : nat) (closes : list Q) (i : nat) :
  (i < length closes)%nat → (w = 0 ∨ length closes < w ∨ i + 1 < w)%nat →
  ema w closes !! i = Some NaN.
Proof.
  intros Hi Hcase. unfold ema.
  destruct (w =? 0)%nat eqn:H0; simpl.
  { apply lookup_replicate_2. lia. }
  destruct (length closes <? w)%nat eqn:H1.
  { apply lookup_replicate_2. lia. }
  apply Nat.eqb_neq in H0. apply Nat.ltb_ge in H1.
  rewrite lookup_app_l by (rewrite length_replicate; lia).
  apply lookup_replicate_2. lia.
Qed.

Lemma ema_lookup_run (w : nat) (closes : list Q) (k : nat) :
  (0 < w)%nat → (w ≤ length closes)%nat →
  ema w closes !! (w - 1 + k)%nat
  = Fin <$> (mean (take w closes)
             :: ema_from (smoothing w) (mean (take w closes)) (drop w closes))
            !! k.
Proof.
  intros Hw Hlen. unfold ema. past_warmup.
  rewrite lookup_app_r by (rewrite length_replicate; lia).
  rewrite length_replicate.
  replace (w - 1 + k - (w - 1))%nat with k by lia.
  by rewrite <- list_lookup_fmap.
Qed.

(** C5.  With a window w > 0 and alpha = 2/(w+1): rows before index w-1
    have no EMA; the EMA of row w-1 is defined and is the SMA(w) of that
    row; every later row i has
    EMA[i] = alpha * close[i] + (1 - alpha) * EMA[i-1]. *)
Theorem ema_seed_recurrence (w : nat) (closes : list Q) :
  (0 < w)%nat →
  (∀ i, (i < length closes)%nat → (i < w - 1)%nat →
     ema w closes !! i = Some NaN)
  ∧ ((w ≤ length closes)%nat →
     ema w closes !! (w - 1)%nat = sma w closes !! (w - 1)%nat
     ∧ ∃ seed, ema w closes !! (w - 1)%nat = Some (Fin seed))
  ∧ (∀ i, (w ≤ i)%nat → (i < length closes)%nat →
     ∃ prev c,
       ema w closes !! (i - 1)%nat = Some (Fin prev)
       ∧ closes !! i = Some c
       ∧ ema w closes !! i
         = Some (Fin (2 / (Qnat w + 1) * c
                      + (1 - 2 / (Qnat w + 1)) * prev)%Q)).
Proof.
  intros Hw. split; [|split].
  - intros i Hi Hlt. apply ema_lookup_warmup; [done | lia].
  - intros Hlen.
    pose proof (ema_lookup_run w closes 0 Hw Hlen) as He.
    rewrite Nat.add_0_r in He. simpl in He. rewrite He. split; [|by eexists].
    by rewrite sma_lookup_seed.
  - intros i Hwi Hi.
    destruct (lookup_lt_is_Some_2 closes i Hi) as [c Hc].
    assert (Hd : drop w closes !! (i - w)%nat = Some c).
    { rewrite lookup_drop. by replace (w + (i - w))%nat with i by lia. }
    destruct (ema_from_step (smoothing w) (mean (take w closes)) _ _ _ Hd)
      as (prev & Hp & Hv).
    exists prev, c. split; [|split; [done|]].
    + replace (i - 1)%nat with (w - 1 + (i - w))%nat by lia.
      rewrite ema_lookup_run by lia. by rewrite Hp.
    + replace i with (w - 1 + S (i - w))%nat at 1 by lia.
      rewrite ema_lookup_run by lia. simpl. by rewrite Hv.
Qed.

Lemma ema_seed_recurrence_witness :
  ema 3 [1; 2; 3; 4; 6]%Q !! 1%nat = Some NaN
  ∧ ema 3 [1; 2; 3; 4; 6]%Q !! 2%nat = sma 3 [1; 2; 3; 4; 6]%Q !! 2%nat
  ∧ ∃ prev,
      ema 3 [1; 2; 3; 4; 6]%Q !! 2%nat = Some (Fin prev)
      ∧ ema 3 [1; 2; 3; 4; 6]%Q !! 3%nat
        = Some (Fin (2 / (Qnat 3 + 1) * 4 + (1 - 2 / (Qnat 3 + 1)) * prev)%Q).
Proof.
  destruct (ema_seed_recurrence 3 [1; 2; 3; 4; 6]%Q) as (H1 & H2 & H3); [lia|].
  split; [apply H1; simpl; lia|].
  split; [apply H2; simpl; lia|].
  destruct (H3 3%nat) as (prev & c & Hp & Hc & Hv); [lia | simpl; lia|].
  exists prev. split; [exact Hp|].
  injection Hc as <-. exact Hv.
Defined.

(** ** The relative strength index *)

Section Averages.
Local Open Scope Q_scope.

Lemma Qdiv_nonneg (a b : Q) : 0 <= a → 0 <= b → 0 <= a / b.
Proof.
  intros Ha Hb. unfold Qdiv.
  apply Qmult_le_0_compat; [done|]. by apply Qinv_le_0_compat.
Qed.

Lemma Qnat_nonneg (n : nat) : 0 <= Qnat n.
Proof. unfold Qnat, Qle. simpl. lia. Qed.

Lemma Qnat_ge_1 (n : nat) : (0 < n)%nat → 1 <= Qnat n.
Proof. intros Hn. unfold Qnat, Qle. simpl. lia. Qed.

Lemma Qsum_nonneg (xs : list Q) :
  Forall (λ x, 0 <= x) xs → 0 <= Qsum xs.
Proof.
  induction 1 as [|x xs Hx _ IH]; simpl; [apply Qle_refl|].
  change 0 with (0 + 0). by apply Qplus_le_compat.
Qed.

Lemma Qsum_zero (xs : list Q) :
  Forall (λ x, x == 0) xs → Qsum xs == 0.
Proof.
  induction 1 as [|x xs Hx _ IH]; simpl; [done|].
  rewrite Hx, IH. ring.
Qed.

Lemma mean_nonneg (xs : list Q) :
  Forall (λ x, 0 <= x) xs → 0 <= mean xs.
Proof.
  intros H. apply Qdiv_nonneg; [by apply Qsum_nonneg | apply Qnat_nonneg].
Qed.

Lemma mean_zero (xs : list Q) :
  Forall (λ x, x == 0) xs → mean xs == 0.
Proof.
  intros H. unfold mean, Qdiv. rewrite (Qsum_zero xs H). ring.
Qed.

Lemma wilder_nonneg (w prev : Q) (xs : list Q) :
  1 <= w → 0 <= prev → Forall (λ x, 0 <= x) xs →
  Forall (λ x, 0 <= x) (wilder w prev xs).
Proof.
  intros Hw Hp H. revert prev Hp.
  induction H as [|x xs Hx _ IH]; intros prev Hp; simpl; [constructor|].
  assert (Ha : 0 <= (prev * (w - 1) + x) / w).
  { apply Qdiv_nonneg; [|lra].
    assert (0 <= prev * (w - 1)) by (apply Qmult_le_0_compat; lra).
    lra. }
  constructor; [done | by apply IH].
Qed.

Lemma wilder_zero (w prev : Q) (xs : list Q) :
  prev == 0 → Forall (λ x, x == 0) xs →
  Forall (λ x, x == 0) (wilder w prev xs).
Proof.
  intros Hp H. revert prev Hp.
  induction H as [|x xs Hx _ IH]; intros prev Hp; simpl; [constructor|].
  assert (Ha : (prev * (w - 1) + x) / w == 0).
  { unfold Qdiv. rewrite Hp, Hx. ring. }
  constructor; [done | by apply IH].
Qed.

Lemma averages_nonneg (w : nat) (xs : list Q) :
  (0 < w)%nat → Forall (λ x, 0 <= x) xs →
  Forall (λ x, 0 <= x) (averages w xs).
Proof.
  intros Hw H. unfold averages. constructor.
  - apply mean_nonneg. by apply Forall_take.
  - apply wilder_nonneg; [by apply Qnat_ge_1| |by apply Forall_drop].
    apply mean_nonneg. by apply Forall_take.
Qed.

Lemma averages_zero (w : nat) (xs : list Q) :
  Forall (λ x, x == 0) xs → Forall (λ x, x == 0) (averages w xs).
Proof.
  intros H. unfold averages. constructor.
  - apply mean_zero. by apply Forall_take.
  - apply wilder_zero; [|by apply Forall_drop].
    apply mean_zero. by apply Forall_take.
Qed.

Lemma length_wilder (w prev : Q) (xs : list Q) :
  length (wilder w prev xs) = length xs.
Proof.
  revert prev. induction xs as [|x xs IH]; intros prev; simpl; [done|].
  by rewrite IH.
Qed.

Lemma length_averages (w : nat) (xs : list Q) :
  length (averages w xs) = S (length xs - w).
Proof.
  unfold averages. simpl. by rewrite length_wilder, length_drop.
Qed.

Lemma gain_nonneg (d : Q) : 0 <= gain d.
Proof.
  unfold gain. destruct (Qle_bool 0 d) eqn:H; [|apply Qle_refl].
  by apply Qle_bool_iff.
Qed.

Lemma loss_nonneg (d : Q) : 0 <= loss d.
Proof.
  unfold loss. destruct (Qle_bool 0 d) eqn:H; [apply Qle_refl|].
  destruct (Qlt_le_dec d 0) as [Hd|Hd].
  - lra.
  - apply Qle_bool_iff in Hd. congruence.
Qed.

Lemma loss_of_gain (d : Q) : 0 <= d → loss d = 0.
Proof.
  intros Hd. unfold loss. apply Qle_bool_iff in Hd. by rewrite Hd.
Qed.

Lemma rsi_value_zero_loss (g l : Q) : l == 0 → rsi_value g l = 100.
Proof.
  intros Hl. unfold rsi_value. apply Qeq_bool_iff in Hl. by rewrite Hl.
Qed.

Lemma rsi_value_range (g l : Q) :
  0 <= g → 0 <= l → 0 <= rsi_value g l ∧ rsi_value g l <= 100.
Proof.
  intros Hg Hl. unfold rsi_value.
  destruct (Qeq_bool l 0) eqn:Hz; [split; lra|].
  assert (Hr : 0 <= g / l) by by apply Qdiv_nonneg.
  assert (Hpos : 0 < 1 + g / l) by lra.
  assert (Hlo : 0 <= 100 / (1 + g / l)) by (apply Qdiv_nonneg; lra).
  assert (Hhi : 100 / (1 + g / l) <= 100).
  { apply Qle_shift_div_r; [done|]. lra. }
  split; lra.
Qed.
End Averages.

Lemma length_diffs (closes : list Q) :
  length (diffs closes) = (length closes - 1)%nat.
Proof.
  unfold diffs. rewrite length_zip_with.
  destruct closes as [|c rest]; [done|].
  change (length (tail (c :: rest))) with (length rest).
  change (length (c :: rest)) with (S (length rest)). lia.
Qed.

Lemma avg_gain_nonneg (w : nat) (closes : list Q) :
  (0 < w)%nat → Forall (λ x, (0 <= x)%Q) (avg_gain w closes).
Proof.
  intros Hw. apply averages_nonneg; [done|].
  apply Forall_fmap, Forall_true. intros d. apply gain_nonneg.
Qed.

Lemma avg_loss_nonneg (w : nat) (closes : list Q) :
  (0 < w)%nat → Forall (λ x, (0 <= x)%Q) (avg_loss w closes).
Proof.
  intros Hw. apply averages_nonneg; [done|].
  apply Forall_fmap, Forall_true. intros d. apply loss_nonneg.
Qed.

Lemma avg_loss_no_losses (w : nat) (closes : list Q) :
  Forall (λ d, (0 <= d)%Q) (diffs closes) →
  Forall (λ x, (x == 0)%Q) (avg_loss w closes).
Proof.
  intros H. apply averages_zero, Forall_fmap.
  eapply Forall_impl; [exact H|]. intros d Hd. simpl.
  by rewrite loss_of_gain.
Qed.

Lemma rsi_lookup_run (w : nat) (closes : list Q) (k : nat) :
  (0 < w)%nat → (w < length closes)%nat →
  rsi w closes !! (w + k)%nat
  = Fin <$> zip_with rsi_value (avg_gain w closes) (avg_loss w closes) !! k.
Proof.
  intros Hw Hlen. unfold rsi. rewrite length_diffs. past_warmup.
  rewrite lookup_app_r by (rewrite length_replicate; lia).
  rewrite length_replicate.
  replace (w + k - w)%nat with k by lia.
  by rewrite list_lookup_fmap.
Qed.

Lemma length_rsi (w : nat) (closes : list Q) :
  length (rsi w closes) = length closes.
Proof.
  unfold rsi. rewrite length_diffs.
  destruct (w =? 0)%nat eqn:H0; simpl orb; cbv iota.
  { apply length_replicate. }
  destruct (length closes - 1 <? w)%nat eqn:H1.
  { apply length_replicate. }
  apply Nat.eqb_neq in H0. apply Nat.ltb_ge in H1.
  rewrite length_app, length_replicate, length_fmap, length_zip_with.
  unfold avg_gain, avg_loss.
  rewrite !length_averages, !length_fmap, length_diffs. lia.
Qed.

Lemma rsi_lookup_warmup (w : nat) (closes : list Q) (i : nat) :
  (i < length closes)%nat → (w = 0 ∨ length closes ≤ w ∨ i < w)%nat →
  rsi w closes !! i = Some NaN.
Proof.
  intros Hi Hcase. unfold rsi. rewrite length_diffs.
  destruct (w =? 0)%nat eqn:H0; simpl orb; cbv iota.
  { apply lookup_replicate_2. lia. }
  destruct (length closes - 1 <? w)%nat eqn:H1.
  { apply lookup_replicate_2. lia. }
  apply Nat.eqb_neq in H0. apply Nat.ltb_ge in H1.
  rewrite lookup_app_l by (rewrite length_replicate; lia).
  apply lookup_replicate_2. lia.
Qed.

(** Every cell of the RSI column is NaN or a rational in [0, 100]. *)
Lemma rsi_cells (w : nat) (closes : list Q) :
  Forall (λ x, x = NaN ∨ ∃ v, x = Fin v ∧ (0 <= v)%Q ∧ (v <= 100)%Q)
         (rsi w closes).
Proof.
  unfold rsi.
  destruct (w =? 0)%nat eqn:H0; simpl orb; cbv iota.
  { apply Forall_replicate. by left. }
  destruct (length (diffs closes) <? w)%nat.
  { apply Forall_replicate. by left. }
  apply Nat.eqb_neq in H0.
  apply Forall_app. split; [apply Forall_replicate; by left|].
  apply Forall_fmap, Forall_lookup. intros k v Hv. simpl. right.
  apply lookup_zip_with_Some in Hv as (g & l & -> & Hg & Hl).
  exists (rsi_value g l). split; [done|].
  apply rsi_value_range.
  - eapply (proj1 (Forall_lookup _ _) (avg_gain_nonneg w closes ltac:(lia))).
    exact Hg.
  - eapply (proj1 (Forall_lookup _ _) (avg_loss_nonneg w closes ltac:(lia))).
    exact Hl.
Qed.

(** From row w on the RSI is a number. *)
Lemma rsi_lookup_defined (w : nat) (closes : list Q) (i : nat) :
  (0 < w)%nat → (w ≤ i)%nat → (i < length closes)%nat →
  ∃ g l, avg_gain w closes !! (i - w)%nat = Some g
         ∧ avg_loss w closes !! (i - w)%nat = Some l
         ∧ rsi w closes !! i = Some (Fin (rsi_value g l)).
Proof.
  intros Hw Hwi Hi.
  assert (Hg : (i - w < length (avg_gain w closes))%nat).
  { unfold avg_gain. rewrite length_averages, length_fmap, length_diffs. lia. }
  assert (Hl : (i - w < length (avg_loss w closes))%nat).
  { unfold avg_loss. rewrite length_averages, length_fmap, length_diffs. lia. }
  destruct (lookup_lt_is_Some_2 _ _ Hg) as [g Hg'].
  destruct (lookup_lt_is_Some_2 _ _ Hl) as [l Hl'].
  exists g, l. split; [done|]. split; [done|].
  replace i with (w + (i - w))%nat at 1 by lia.
  rewrite rsi_lookup_run by lia.
  by rewrite lookup_zip_with, Hg', Hl'.
Qed.

(** ** The frame with its four indicator columns *)

Lemma at_row_Forall (P : float → Prop) (col : list float) (i : nat) :
  P NaN → Forall P col → P (at_row col i).
Proof.
  intros HN Hcol. unfold at_row.
  destruct (col !! i) as [x|] eqn:Hx; simpl; [|done].
  by eapply (proj1 (Forall_lookup _ _) Hcol).
Qed.

Lemma on_closes_Forall (P : float → Prop) (f : list Q → list float)
    (col : list float) :
  P NaN → (∀ closes, Forall P (f closes)) → Forall P (on_closes f col).
Proof.
  intros HN Hf. unfold on_closes.
  destruct (finite_values col); [apply Hf | by apply Forall_replicate].
Qed.

Lemma append_indicators_lookup (ta : pandas_ta) (cfg : sidebar)
    (data : list Bar) (i : nat) :
  append_indicators ta cfg data !! i
  = (λ b, mkRow b
            (at_row (ta_sma ta (short_ma cfg) (Close <$> data)) i)
            (at_row (ta_sma ta (long_ma cfg) (Close <$> data)) i)
            (at_row (ta_ema ta (ema_period cfg) (Close <$> data)) i)
            (at_row (ta_rsi ta (rsi_period cfg) (Close <$> data)) i))
    <$> data !! i.
Proof. unfold append_indicators. by rewrite list_lookup_imap. Qed.

Lemma append_indicators_bars (ta : pandas_ta) (cfg : sidebar)
    (data : list Bar) :
  bar <$> append_indicators ta cfg data = data.
Proof.
  apply list_eq. intros i.
  rewrite list_lookup_fmap, append_indicators_lookup.
  by destruct (data !! i).
Qed.

Lemma elem_of_dropna (data : list Row) (r : Row) :
  r ∈ dropna data ↔ r ∈ data ∧ row_notna r = true.
Proof. unfold dropna. rewrite !list_elem_of_In. apply filter_In. Qed.

(** C1.  On the RSI of section 4.2: every cell of the column is either
    undefined or a value in [0, 100]; from row w on (w > 0) the value is
    defined; where the average loss is zero it is exactly 100, so it is
    100 on every such row of a series without a falling day (all gains,
    or a constant close).  Every RSI the script keeps after [dropna]
    lies in [0, 100]. *)
Theorem rsi_range (w : nat) (closes : list Q) :
  (∀ i x, rsi w closes !! i = Some x →
     x = NaN ∨ ∃ v, x = Fin v ∧ (0 <= v)%Q ∧ (v <= 100)%Q)
  ∧ (∀ i, (0 < w)%nat → (w ≤ i)%nat → (i < length closes)%nat →
     ∃ v, rsi w closes !! i = Some (Fin v))
  ∧ (∀ k l, (0 < w)%nat → (w + k < length closes)%nat →
     avg_loss w closes !! k = Some l → (l == 0)%Q →
     rsi w closes !! (w + k)%nat = Some (Fin 100))
  ∧ (∀ i, (0 < w)%nat → (w ≤ i)%nat → (i < length closes)%nat →
     Forall (λ d, (0 <= d)%Q) (diffs closes) →
     rsi w closes !! i = Some (Fin 100))
  ∧ (∀ cfg data r, r ∈ dropna (append_indicators spec_ta cfg data) →
     ∃ v, RSI r = Fin v ∧ (0 <= v)%Q ∧ (v <= 100)%Q).
Proof.
  split; [|split; [|split; [|split]]].
  - intros i x Hx.
    by eapply (proj1 (Forall_lookup _ _) (rsi_cells w closes)).
  - intros i Hw Hwi Hi.
    destruct (rsi_lookup_defined w closes i Hw Hwi Hi) as (g & l & _ & _ & H).
    by eexists.
  - intros k l Hw Hk Hl Hz.
    destruct (rsi_lookup_defined w closes (w + k)) as (g & l' & _ & Hl' & H);
      [lia..|].
    replace (w + k - w)%nat with k in Hl' by lia.
    rewrite Hl in Hl'. injection Hl' as <-.
    by rewrite H, rsi_value_zero_loss.
  - intros i Hw Hwi Hi Hup.
    destruct (rsi_lookup_defined w closes i Hw Hwi Hi) as (g & l & _ & Hl & H).
    rewrite H, rsi_value_zero_loss; [done|].
    by eapply (proj1 (Forall_lookup _ _) (avg_loss_no_losses w closes Hup)).
  - intros cfg data r Hr.
    apply elem_of_dropna in Hr as [Hr Hna].
    apply list_elem_of_lookup in Hr as [i Hi].
    rewrite append_indicators_lookup in Hi.
    destruct (data !! i) as [b|]; [|done]. injection Hi as <-.
    unfold row_notna, indicators_notna in Hna. simpl in Hna.
    apply andb_prop in Hna as [_ Hna]. apply andb_prop in Hna as [_ Hna].
    set (x := at_row (on_closes (rsi (rsi_period cfg)) (Close <$> data)) i)
      in *.
    assert (Hx : x = NaN ∨ ∃ v, x = Fin v ∧ (0 <= v)%Q ∧ (v <= 100)%Q).
    { apply at_row_Forall; [by left|].
      apply on_closes_Forall; [by left|]. intros cl. apply rsi_cells. }
    destruct Hx as [Hx|Hx]; [|done].
    rewrite Hx in Hna. done.
Qed.

Lemma rsi_range_witness :
  rsi 7 (replicate 10 100%Q) !! 8%nat = Some (Fin 100)
  ∧ rsi 7 [1; 2; 3; 4; 5; 6; 7; 8; 9; 10]%Q !! 9%nat = Some (Fin 100)
  ∧ (∃ v, rsi 7 [10; 9; 8; 7; 6; 5; 4; 3; 4; 5]%Q !! 8%nat = Some (Fin v)
          ∧ (0 <= v)%Q ∧ (v <= 100)%Q)
  ∧ (∃ l, avg_loss 7 [1; 2; 3; 4; 5; 6; 7; 8; 9; 10]%Q !! 1%nat = Some l
          ∧ (l == 0)%Q
          ∧ rsi 7 [1; 2; 3; 4; 5; 6; 7; 8; 9; 10]%Q !! (7 + 1)%nat
            = Some (Fin 100))
  ∧ (∃ r v,
       head (dropna (append_indicators spec_ta
                       (mkSidebar "AAPL" 0 10 2 3 2 2 true)
                       [ day 1 10 (Fin 500); day 2 11 (Fin 500);
                         day 3 12 (Fin 650); day 4 11 (Fin 700);
                         day 5 13 (Fin 700) ])) = Some r
       ∧ RSI r = Fin v ∧ (0 <= v)%Q ∧ (v <= 100)%Q).
Proof.
  split; [|split; [|split; [|split]]].
  - apply (rsi_range 7 (replicate 10 100%Q)); [lia | lia | simpl; lia|].
    unfold diffs. simpl. repeat (constructor; [by vm_compute|]). constructor.
  - apply (rsi_range 7 [1; 2; 3; 4; 5; 6; 7; 8; 9; 10]%Q);
      [lia | lia | simpl; lia|].
    unfold diffs. simpl. repeat (constructor; [by vm_compute|]). constructor.
  - destruct (rsi_range 7 [10; 9; 8; 7; 6; 5; 4; 3; 4; 5]%Q)
      as (Hrange & Hdef & _).
    destruct (Hdef 8%nat) as [v Hv]; [lia | lia | simpl; lia|].
    exists v. split; [exact Hv|].
    destruct (Hrange 8%nat (Fin v) Hv) as [Hn|(v' & Hv' & Hb)]; [done|].
    injection Hv' as <-. exact Hb.
  - destruct (rsi_range 7 [1; 2; 3; 4; 5; 6; 7; 8; 9; 10]%Q)
      as (_ & _ & Hzero & _).
    destruct (avg_loss 7 [1; 2; 3; 4; 5; 6; 7; 8; 9; 10]%Q !! 1%nat)
      as [l|] eqn:Hl; [|by vm_compute in Hl].
    assert (Hz : (l == 0)%Q).
    { vm_compute in Hl. injection Hl as <-. reflexivity. }
    exists l. split; [done|]. split; [exact Hz|].
    apply (Hzero 1%nat l); [lia | simpl; lia | exact Hl | exact Hz].
  - destruct (rsi_range 7 []) as (_ & _ & _ & _ & Hkept).
    destruct (dropna (append_indicators spec_ta
                        (mkSidebar "AAPL" 0 10 2 3 2 2 true)
                        [ day 1 10 (Fin 500); day 2 11 (Fin 500);
                          day 3 12 (Fin 650); day 4 11 (Fin 700);
                          day 5 13 (Fin 700) ])) as [|r rest] eqn:Hd;
      [by vm_compute in Hd|].
    destruct (Hkept (mkSidebar "AAPL" 0 10 2 3 2 2 true)
                [ day 1 10 (Fin 500); day 2 11 (Fin 500);
                  day 3 12 (Fin 650); day 4 11 (Fin 700);
                  day 5 13 (Fin 700) ] r) as (v & Hv & Hb).
    { rewrite Hd. apply list_elem_of_here. }
    by exists r, v.
Defined.

(** ** Alignment: [dropna] *)

Lemma dropna_Forall (data : list Row) :
  Forall (λ r, row_notna r = true) (dropna data).
Proof.
  apply Forall_forall. intros r Hr. by apply elem_of_dropna in Hr as [_ ?].
Qed.

Lemma dropna_all (data : list Row) :
  Forall (λ r, row_notna r = true) data → dropna data = data.
Proof.
  induction 1 as [|r rest Hr _ IH]; simpl; [done|].
  by rewrite Hr, IH.
Qed.

Lemma dropna_sublist (data : list Row) : sublist (dropna data) data.
Proof.
  induction data as [|r rest IH]; simpl; [constructor|].
  destruct (row_notna r); by constructor.
Qed.

Lemma first_defined_le (data : list Row) :
  (first_defined data ≤ length data)%nat.
Proof.
  induction data as [|r rest IH]; simpl; [done|].
  destruct (indicators_notna r); lia.
Qed.

Lemma first_defined_before (data : list Row) (i : nat) (r : Row) :
  (i < first_defined data)%nat → data !! i = Some r →
  indicators_notna r = false.
Proof.
  revert i. induction data as [|r0 rest IH]; intros i Hi Hr; simpl in *.
  { lia. }
  destruct (indicators_notna r0) eqn:H0; [lia|].
  destruct i as [|i]; simpl in Hr.
  - by injection Hr as <-.
  - apply (IH i); [lia | done].
Qed.

Lemma first_defined_at (data : list Row) :
  (first_defined data < length data)%nat →
  ∃ r, data !! first_defined data = Some r ∧ indicators_notna r = true.
Proof.
  induction data as [|r0 rest IH]; simpl; [lia|].
  destruct (indicators_notna r0) eqn:H0.
  - intros _. by exists r0.
  - intros Hlt. apply IH. lia.
Qed.

Lemma dropna_drop_first_defined (data : list Row) :
  dropna data = dropna (drop (first_defined data) data).
Proof.
  induction data as [|r rest IH]; simpl; [done|].
  destruct (indicators_notna r) eqn:Hr; [done|].
  unfold row_notna. rewrite Hr, andb_false_r. exact IH.
Qed.

Lemma persist_drop_first_defined (data : list Row) :
  Forall (λ r, bar_notna (bar r) = true) data →
  indicators_persist data →
  Forall (λ r, row_notna r = true) (drop (first_defined data) data).
Proof.
  intros Hbars Hpersist. apply Forall_lookup. intros j r' Hj.
  rewrite lookup_drop in Hj.
  assert (Hlt : (first_defined data < length data)%nat).
  { apply lookup_lt_Some in Hj. lia. }
  destruct (first_defined_at data Hlt) as (r & Hr & Hdef).
  unfold row_notna. apply andb_true_intro. split.
  - by eapply (proj1 (Forall_lookup _ _) Hbars).
  - eapply (Hpersist (first_defined data)); [|exact Hr|exact Hj|exact Hdef].
    lia.
Qed.




(** ** The frame effect of enrichment and alignment *)

Section Sorted.
Context {A : Type} (R : relation A).

Lemma StronglySorted_sublist (l1 l2 : list A) :
  sublist l1 l2 → StronglySorted R l2 → StronglySorted R l1.
Proof.
  induction 1 as [|x l1 l2 Hsub IH|x l1 l2 Hsub IH]; intros Hs.
  - constructor.
  - apply StronglySorted_inv in Hs as [Hs Hx]. constructor; [by apply IH|].
    apply Forall_forall. intros y Hy.
    eapply elem_of_sublist in Hy; [|exact Hsub].
    by eapply (proj1 (Forall_forall _ _) Hx).
  - apply StronglySorted_inv in Hs as [Hs _]. by apply IH.
Qed.

Lemma StronglySorted_lookup_lt (l : list A) (i j : nat) (x y : A) :
  StronglySorted R l → l !! i = Some x → l !! j = Some y → (i < j)%nat →
  R x y.
Proof.
  intros Hs. revert i j. induction Hs as [|a l Hs IH Ha]; intros i j Hi Hj Hij.
  { by rewrite lookup_nil in Hi. }
  destruct j as [|j]; [lia|]. simpl in Hj.
  destruct i as [|i]; simpl in Hi.
  - injection Hi as <-.
    eapply (proj1 (Forall_forall _ _) Ha), list_elem_of_lookup_2, Hj.
  - apply (IH i j); [done..|lia].
Qed.
End Sorted.

Lemma dropna_dates_sorted (ta : pandas_ta) (cfg : sidebar) (data : list Bar) :
  StronglySorted Z.lt (date <$> data) →
  StronglySorted Z.lt
    (date <$> (bar <$> dropna (append_indicators ta cfg data))).
Proof.
  apply StronglySorted_sublist.
  apply fmap_sublist.
  rewrite <- (append_indicators_bars ta cfg data) at 2.
  apply fmap_sublist, dropna_sublist.
Qed.

(** C9.  Appending the indicators leaves every fetched row as it was,
    and [dropna] deletes whole rows: the bars of the rows the script
    keeps are rows of the fetched frame, unchanged and in the order of
    the fetched frame; their dates ascend when the fetched dates do. *)
Theorem enrichment_keeps_bars (ta : pandas_ta) (cfg : sidebar)
    (data : list Bar) :
  bar <$> append_indicators ta cfg data = data
  ∧ sublist (bar <$> dropna (append_indicators ta cfg data)) data
  ∧ (StronglySorted Z.lt (date <$> data) →
     StronglySorted Z.lt
       (date <$> (bar <$> dropna (append_indicators ta cfg data)))).
Proof.
  split; [apply append_indicators_bars|]. split.
  - rewrite <- (append_indicators_bars ta cfg data) at 2.
    apply fmap_sublist, dropna_sublist.
  - apply dropna_dates_sorted.
Qed.

Lemma enrichment_keeps_bars_witness :
  let data := [ day 1 10 (Fin 500); day 2 11 (Fin 500); day 3 12 NaN;
                day 4 11 (Fin 700); day 5 13 (Fin 700) ] in
  let cfg := mkSidebar "AAPL" 0 10 2 3 2 2 true in
  bar <$> dropna (append_indicators spec_ta cfg data)
    = [ day 4 11 (Fin 700); day 5 13 (Fin 700) ]
  ∧ StronglySorted Z.lt
      (date <$> (bar <$> dropna (append_indicators spec_ta cfg data))).
Proof.
  intros data cfg. split; [reflexivity|].
  apply (enrichment_keeps_bars spec_ta cfg data).
  unfold data. simpl. repeat constructor.
Defined.

(** ** The performance summary *)

Section Iloc.
Context {A : Type}.

Lemma iloc_nil (i : Z) :
  iloc (@nil A) i
  = Raise (IndexError "single positional indexer is out-of-bounds").
Proof.
  unfold iloc. simpl length.
  destruct (i <? 0)%Z eqn:Hneg.
  - apply Z.ltb_lt in Hneg.
    replace ((0 <=? i + Z.of_nat 0)%Z) with false
      by (symmetry; apply Z.leb_gt; lia).
    done.
  - apply Z.ltb_ge in Hneg.
    replace ((i <? Z.of_nat 0)%Z) with false
      by (symmetry; apply Z.ltb_ge; lia).
    by rewrite andb_false_r.
Qed.

Lemma iloc_first (s : list A) (a : A) :
  s !! 0%nat = Some a → iloc s 0 = Return a.
Proof.
  intros Ha. unfold iloc.
  assert (0 < length s)%nat by by apply lookup_lt_Some in Ha.
  replace ((0 <? 0)%Z) with false by done.
  replace ((0 <=? 0)%Z) with true by done.
  replace ((0 <? Z.of_nat (length s))%Z) with true
    by (symmetry; apply Z.ltb_lt; lia).
  cbn [andb]. change (Z.to_nat 0) with 0%nat. by rewrite Ha.
Qed.

Lemma iloc_last (s : list A) (a : A) :
  last s = Some a → iloc s (-1) = Return a.
Proof.
  intros Ha. rewrite last_lookup in Ha. unfold iloc.
  assert (0 < length s)%nat by (apply lookup_lt_Some in Ha; lia).
  replace ((-1 <? 0)%Z) with true by done.
  replace ((0 <=? -1 + Z.of_nat (length s))%Z) with true
    by (symmetry; apply Z.leb_le; lia).
  replace ((-1 + Z.of_nat (length s) <? Z.of_nat (length s))%Z) with true
    by (symmetry; apply Z.ltb_lt; lia).
  cbn [andb].
  replace (Z.to_nat (-1 + Z.of_nat (length s))) with (pred (length s)) by lia.
  by rewrite Ha.
Qed.
End Iloc.

Lemma performance_summary_nil :
  performance_summary []
  = Raise (IndexError "single positional indexer is out-of-bounds").
Proof. reflexivity. Qed.

Lemma performance_summary_rows (data : list Row) (first final : Row) :
  head data = Some first → last data = Some final →
  performance_summary data
  = Return (mkSummary (Close (bar first)) (Close (bar final))
              (fsub (fdiv (Close (bar final)) (Close (bar first))) (Fin 1))
              (rmul (std (pct_change ((λ r, Close (bar r)) <$> data)))
                    (fsqrt (Fin 252)))).
Proof.
  intros Hfirst Hfinal. unfold performance_summary.
  rewrite (iloc_first _ (Close (bar first))).
  2:{ rewrite list_lookup_fmap, <- head_lookup, Hfirst. done. }
  simpl Py.bind.
  rewrite (iloc_last _ (Close (bar final))).
  2:{ rewrite fmap_last, Hfinal. done. }
  done.
Qed.

(** C6.  When the aligned frame has at least two rows, the summary is
    produced and its total return is close(last row) / close(first row)
    - 1, the first and the last row of the aligned frame; with fetched
    dates ascending these are the earliest and the latest kept day. *)
Theorem total_return_first_last (ta : pandas_ta) (cfg : sidebar)
    (fetched : list Bar) :
  let data := dropna (append_indicators ta cfg fetched) in
  (2 ≤ length data)%nat →
  ∃ first final s,
    data !! 0%nat = Some first
    ∧ data !! (length data - 1)%nat = Some final
    ∧ performance_summary data = Return s
    ∧ total_return s
      = fsub (fdiv (Close (bar final)) (Close (bar first))) (Fin 1)
    ∧ (StronglySorted Z.lt (date <$> fetched) →
       (date (bar first) < date (bar final))%Z
       ∧ ∀ r, r ∈ data →
           (date (bar first) <= date (bar r) <= date (bar final))%Z).
Proof.
  intros data Hlen.
  destruct (lookup_lt_is_Some_2 data 0) as [first Hfirst]; [lia|].
  destruct (lookup_lt_is_Some_2 data (length data - 1)) as [final Hfinal];
    [lia|].
  exists first, final. eexists. split; [done|]. split; [done|].
  split.
  { apply performance_summary_rows; [by rewrite head_lookup|].
    rewrite last_lookup.
    by replace (pred (length data)) with (length data - 1)%nat by lia. }
  split; [done|].
  intros Hsorted.
  pose proof (dropna_dates_sorted ta cfg fetched Hsorted) as Hs.
  fold data in Hs.
  assert (Hd : ∀ i r, data !! i = Some r →
            (date <$> (bar <$> data)) !! i = Some (date (bar r))).
  { intros i r Hr. by rewrite !list_lookup_fmap, Hr. }
  split.
  - eapply (StronglySorted_lookup_lt Z.lt _ 0 (length data - 1));
      [exact Hs | by apply Hd | by apply Hd | lia].
  - intros r Hr. apply list_elem_of_lookup in Hr as [i Hi].
    assert (i < length data)%nat by by apply lookup_lt_Some in Hi.
    split.
    + destruct (decide (i = 0)%nat) as [->|Hne].
      * rewrite Hfirst in Hi. injection Hi as <-. lia.
      * apply Z.lt_le_incl.
        eapply (StronglySorted_lookup_lt Z.lt _ 0 i);
          [exact Hs | by apply Hd | by apply Hd | lia].
    + destruct (decide (i = length data - 1)%nat) as [->|Hne].
      * rewrite Hfinal in Hi. injection Hi as <-. lia.
      * apply Z.lt_le_incl.
        eapply (StronglySorted_lookup_lt Z.lt _ i (length data - 1));
          [exact Hs | by apply Hd | by apply Hd | lia].
Qed.

Lemma total_return_first_last_witness :
  let fetched := [ day 1 10 (Fin 500); day 2 11 (Fin 500); day 3 12 (Fin 650);
                   day 4 11 (Fin 700); day 5 13 (Fin 700) ] in
  let cfg := mkSidebar "AAPL" 0 10 2 3 2 2 true in
  ∃ first final s,
    performance_summary (dropna (append_indicators spec_ta cfg fetched))
    = Return s
    ∧ total_return s = fsub (fdiv (Fin 13) (Fin 12)) (Fin 1)
    ∧ date (bar first) = 3%Z ∧ date (bar final) = 5%Z
    ∧ (date (bar first) < date (bar final))%Z.
Proof.
  intros fetched cfg.
  destruct (total_return_first_last spec_ta cfg fetched)
    as (first & final & s & Hfirst & Hfinal & Hs & Hret & Hdates).
  { vm_compute. lia. }
  exists first, final, s. split; [exact Hs|].
  destruct Hdates as [Hlt _].
  { unfold fetched. simpl. repeat constructor. }
  vm_compute in Hfirst. injection Hfirst as <-.
  vm_compute in Hfinal. injection Hfinal as <-.
  split; [exact Hret|]. split; [reflexivity|]. split; [reflexivity|].
  exact Hlt.
Defined.

(** *** The analysis, block by block *)

Lemma dropna_in_all (cols : columns_appended) (data : list Row) :
  all_appended cols = true → dropna_in cols data = dropna data.
Proof. by destruct cols as [[] [] [] []]. Qed.

Lemma missing_in_None (cols : columns_appended) (cfg : sidebar) :
  missing_in cols cfg = None ↔ all_appended cols = true.
Proof. by destruct cols as [[] [] [] []]. Qed.

Lemma charts_appended (cols : columns_appended) (cfg : sidebar)
    (data : list Row) :
  all_appended cols = true →
  charts cols cfg data
  = ([ st_header ("📊 Analysis for " +:+ ticker cfg);
       st_plotly_chart (fig_price cfg data);
       st_plotly_chart (fig_rsi cfg data) ], Return tt).
Proof. by destruct cols as [[] [] [] []]. Qed.

Lemma charts_missing (cols : columns_appended) (cfg : sidebar)
    (data : list Row) (name : string) :
  missing_in cols cfg = Some name →
  charts cols cfg data
  = (st_header ("📊 Analysis for " +:+ ticker cfg)
       :: (if has_sma_short cols && has_sma_long cols && has_ema cols
           then [st_plotly_chart (fig_price cfg data)] else []),
     Raise (KeyError name)).
Proof.
  destruct cols as [[] [] [] []]; unfold missing_in; simpl;
    intros [= <-]; reflexivity.
Qed.

Lemma summary_and_export_rows (cfg : sidebar) (data : list Row)
    (first final : Row) :
  head data = Some first → last data = Some final →
  summary_and_export cfg data
  = ([ st_header "📈 Performance Summary";
       st_metric "Start Price" (Dollars (Close (bar first)));
       st_metric "End Price" (Dollars (Close (bar final)));
       st_metric "Total Return"
         (Percent (fsub (fdiv (Close (bar final)) (Close (bar first)))
                        (Fin 1)));
       st_metric "Annualized Volatility"
         (PercentSqrt (rmul (std (pct_change ((λ r, Close (bar r)) <$> data)))
                            (fsqrt (Fin 252))));
       st_header "📄 Data and Export";
       st_dataframe data;
       st_download_button "📥 Download Data as CSV" data
         (ticker cfg) (start_date cfg) (end_date cfg) ], Return tt).
Proof.
  intros Hfirst Hfinal. unfold summary_and_export, lift.
  by rewrite (performance_summary_rows data first final).
Qed.

Lemma analysis_appended (ta : pandas_ta) (cfg : sidebar) (frame : DataFrame) :
  bars frame ≠ [] → missing_column ta cfg (bars frame) = None →
  analysis ta cfg (Some frame)
  = sbind ([ st_header ("📊 Analysis for " +:+ ticker cfg);
             st_plotly_chart
               (fig_price cfg (dropna (append_indicators ta cfg (bars frame))));
             st_plotly_chart
               (fig_rsi cfg (dropna (append_indicators ta cfg (bars frame)))) ],
           Return tt)
          (λ _, summary_and_export cfg
                  (dropna (append_indicators ta cfg (bars frame)))).
Proof.
  intros Hrows Hcols. apply missing_in_None in Hcols.
  unfold analysis, empty. destruct (bars frame) as [|b rest]; [done|].
  simpl negb. cbv iota zeta.
  by rewrite (dropna_in_all _ _ Hcols), (charts_appended _ _ _ Hcols).
Qed.

Lemma analysis_missing (ta : pandas_ta) (cfg : sidebar) (frame : DataFrame)
    (name : string) :
  bars frame ≠ [] → missing_column ta cfg (bars frame) = Some name →
  analysis ta cfg (Some frame)
  = (st_header ("📊 Analysis for " +:+ ticker cfg)
       :: (if has_sma_short (appended ta cfg (bars frame))
              && has_sma_long (appended ta cfg (bars frame))
              && has_ema (appended ta cfg (bars frame))
           then [st_plotly_chart
                   (fig_price cfg
                      (dropna_in (appended ta cfg (bars frame))
                         (append_indicators ta cfg (bars frame))))]
           else []),
     Raise (KeyError name)).
Proof.
  intros Hrows Hcols.
  unfold analysis, empty. destruct (bars frame) as [|b rest]; [done|].
  simpl negb. cbv iota zeta.
  by rewrite (charts_missing _ _ _ name Hcols).
Qed.

(** How the analysis of a frame with rows ends. *)
Lemma analysis_result (ta : pandas_ta) (cfg : sidebar) (frame : DataFrame) :
  bars frame ≠ [] →
  (analysis ta cfg (Some frame)).2
  = match missing_column ta cfg (bars frame) with
    | Some name => Raise (KeyError name)
    | None =>
        match dropna (append_indicators ta cfg (bars frame)) with
        | [] => Raise (IndexError "single positional indexer is out-of-bounds")
        | _ :: _ => Return tt
        end
    end.
Proof.
  intros Hrows.
  destruct (missing_column ta cfg (bars frame)) as [name|] eqn:Hcols.
  - by rewrite (analysis_missing ta cfg frame name).
  - rewrite (analysis_appended ta cfg frame) by done.
    destruct (dropna (append_indicators ta cfg (bars frame)))
      as [|first others] eqn:Hd; [done|].
    destruct (last_is_Some (first :: others)) as [_ [final Hfinal]]; [done|].
    by rewrite (summary_and_export_rows cfg _ first final).
Qed.

(** C2, as the code has it.  No row: the first [iloc] raises IndexError
    and there is no summary.  One row: the summary is produced, both
    prices are the close of that row, the total return is
    close/close - 1 (zero for a close that is a number other than 0) and
    the volatility is NaN.  IndexError on the empty frame is the only
    exception the summary raises.  In the script the summary is reached
    with the four indicator columns in the frame, after the two charts;
    a frame that lacks a column ends in the KeyError of the chart lines
    and shows no metric. *)
Theorem performance_summary_short :
  performance_summary []
  = Raise (IndexError "single positional indexer is out-of-bounds")
  ∧ (∀ r, performance_summary [r]
          = Return (mkSummary (Close (bar r)) (Close (bar r))
                      (fsub (fdiv (Close (bar r)) (Close (bar r))) (Fin 1))
                      (Sqrt NaN)))
  ∧ (∀ r c, Close (bar r) = Fin c → ¬ (c == 0)%Q →
     ∃ s, performance_summary [r] = Return s
          ∧ feq (total_return s) (Fin 0)
          ∧ annualized_volatility s = Sqrt NaN)
  ∧ (∀ data e, performance_summary data = Raise e →
     data = [] ∧ exn_class e = "IndexError")
  ∧ (∀ ta cfg frame,
       bars frame ≠ [] →
       missing_column ta cfg (bars frame) = None →
       dropna (append_indicators ta cfg (bars frame)) = [] →
       analysis ta cfg (Some frame)
       = ([ st_header ("📊 Analysis for " +:+ ticker cfg);
            st_plotly_chart (fig_price cfg []);
            st_plotly_chart (fig_rsi cfg []);
            st_header "📈 Performance Summary" ],
          Raise (IndexError "single positional indexer is out-of-bounds")))
  ∧ (∀ ta cfg frame r,
       bars frame ≠ [] →
       missing_column ta cfg (bars frame) = None →
       dropna (append_indicators ta cfg (bars frame)) = [r] →
       ∃ out, analysis ta cfg (Some frame) = (out, Return tt)
              ∧ st_metric "Total Return"
                  (Percent (fsub (fdiv (Close (bar r)) (Close (bar r)))
                                 (Fin 1))) ∈ out
              ∧ st_metric "Annualized Volatility" (PercentSqrt (Sqrt NaN))
                  ∈ out)
  ∧ (∀ ta cfg frame name,
       bars frame ≠ [] →
       missing_column ta cfg (bars frame) = Some name →
       ∃ out, analysis ta cfg (Some frame) = (out, Raise (KeyError name))
              ∧ ∀ label value, st_metric label value ∉ out).
Proof.
  assert (Hone : ∀ r, performance_summary [r]
            = Return (mkSummary (Close (bar r)) (Close (bar r))
                        (fsub (fdiv (Close (bar r)) (Close (bar r))) (Fin 1))
                        (Sqrt NaN))).
  { intros r. by rewrite (performance_summary_rows [r] r r). }
  split; [reflexivity|]. split; [exact Hone|].
  split; [|split; [|split; [|split]]].
  - intros r c Hc Hnz. eexists. split; [apply Hone|]. simpl.
    split; [|done]. rewrite Hc. unfold fdiv.
    destruct (Qeq_bool c 0) eqn:Hz.
    { apply Qeq_bool_iff in Hz. done. }
    simpl. field. done.
  - intros data e He.
    destruct data as [|r rest]; [by injection He as <-|].
    destruct (last_is_Some (r :: rest)) as [_ [final Hfinal]]; [done|].
    by rewrite (performance_summary_rows (r :: rest) r final) in He.
  - intros ta cfg frame Hrows Hcols Hdrop.
    by rewrite (analysis_appended ta cfg frame Hrows Hcols), Hdrop.
  - intros ta cfg frame r Hrows Hcols Hdrop.
    rewrite (analysis_appended ta cfg frame Hrows Hcols), Hdrop.
    rewrite (summary_and_export_rows cfg [r] r r) by done.
    eexists. split; [reflexivity|]. split.
    + do 6 apply list_elem_of_further. apply list_elem_of_here.
    + do 7 apply list_elem_of_further. apply list_elem_of_here.
  - intros ta cfg frame name Hrows Hcols.
    rewrite (analysis_missing ta cfg frame name Hrows Hcols).
    eexists. split; [reflexivity|].
    intros label value Hin.
    apply elem_of_cons in Hin as [Hin|Hin]; [discriminate Hin|].
    destruct (_ && _); [|by apply elem_of_nil in Hin].
    apply elem_of_cons in Hin as [Hin|Hin]; [discriminate Hin|].
    by apply elem_of_nil in Hin.
Qed.

Lemma performance_summary_short_witness :
  let cfg := mkSidebar "AAPL" 0 10 20 50 20 14 true in
  let labels := Index ["Close"; "High"; "Low"; "Open"; "Volume"] in
  let five := mkFrame labels
                [ day 1 10 (Fin 500); day 2 11 (Fin 500); day 3 12 (Fin 650);
                  day 4 11 (Fin 700); day 5 13 (Fin 700) ] in
  let fifty := mkFrame labels (days 50) in
  let gap := mkFrame labels (days 49 ++ [day 50 101 NaN]) in
  (∃ s, performance_summary
          [mkRow (day 5 13 (Fin 700)) (Fin 12) (Fin (57 # 5)) (Fin 12) (Fin 60)]
        = Return s
        ∧ feq (total_return s) (Fin 0)
        ∧ annualized_volatility s = Sqrt NaN)
  ∧ analysis short_frame_ta cfg (Some gap)
    = ([ st_header "📊 Analysis for AAPL";
         st_plotly_chart (fig_price cfg []);
         st_plotly_chart (fig_rsi cfg []);
         st_header "📈 Performance Summary" ],
       Raise (IndexError "single positional indexer is out-of-bounds"))
  ∧ (∃ out, analysis short_frame_ta cfg (Some fifty) = (out, Return tt)
            ∧ st_metric "Annualized Volatility" (PercentSqrt (Sqrt NaN))
                ∈ out)
  ∧ (∃ out, analysis short_frame_ta cfg (Some five)
            = (out, Raise (KeyError "SMA_20"))
            ∧ ∀ label value, st_metric label value ∉ out).
Proof.
  intros cfg labels five fifty gap.
  destruct performance_summary_short
    as (_ & _ & Hone & _ & Hnone & Hrow & Hmissing).
  split; [|split; [|split]].
  - apply (Hone _ 13%Q); [reflexivity | discriminate].
  - apply (Hnone short_frame_ta cfg gap);
      [discriminate | reflexivity | by vm_compute].
  - destruct (dropna (append_indicators short_frame_ta cfg (bars fifty)))
      as [|r [|r' rest]] eqn:Hd;
      [by vm_compute in Hd| |by vm_compute in Hd].
    destruct (Hrow short_frame_ta cfg fifty r)
      as (out & Hout & _ & Hvol); [discriminate | reflexivity | exact Hd|].
    by exists out.
  - apply (Hmissing short_frame_ta cfg five); [discriminate | reflexivity].
Defined.

(** C2, as the spec words it, fails: on a frame of one row the summary
    is produced, with a total return of zero and a NaN volatility; on
    the empty frame the exception is IndexError. *)
Lemma summary_of_short_frame :
  performance_summary
    [mkRow (day 5 13 (Fin 700)) (Fin 12) (Fin (57 # 5)) (Fin 12) (Fin 60)]
  = Return (mkSummary (Fin 13) (Fin 13) (Fin (0 # 13)) (Sqrt NaN))
  ∧ (∀ text,
       performance_summary
         [mkRow (day 5 13 (Fin 700)) (Fin 12) (Fin (57 # 5)) (Fin 12) (Fin 60)]
       ≠ Raise (Exn "InsufficientDataError" text true))
  ∧ (∀ text,
       performance_summary [] ≠ Raise (Exn "InsufficientDataError" text true)).
Proof.
  split; [reflexivity|]. split; intros text H; discriminate H.
Qed.

(** ** The download and its cache *)

Lemma download_data_raised (yf_download : request → py DataFrame)
    (ticker : string) (start_date end_date : Z) (e : exn) :
  yf_download (ticker, start_date, end_date) = Raise e →
  download_data yf_download ticker start_date end_date
  = if is_Exception e
    then ([st_error ("Failed to download data for " +:+ ticker
                     +:+ ". Error: " +:+ exn_text e)], Return None)
    else ([], Raise e).
Proof.
  intros H. unfold download_data, lift. rewrite H. simpl.
  by destruct (is_Exception e).
Qed.

Lemma download_data_returned (yf_download : request → py DataFrame)
    (ticker : string) (start_date end_date : Z) (data : DataFrame) :
  yf_download (ticker, start_date, end_date) = Return data →
  download_data yf_download ticker start_date end_date
  = ([], Return (Some (if is_MultiIndex (columns data)
                       then mkFrame (droplevel_1 (columns data)) (bars data)
                       else data))).
Proof. intros H. unfold download_data, lift. by rewrite H. Qed.

(** C10, as the code has it.  When the call to the provider raises an
    Exception, [download_data] catches it, shows the failure and
    returns None; when the call returns a frame, it returns that frame
    (labels flattened) and not None.  So, with a provider that raises
    Exceptions only, it never raises and returns None exactly when the
    download failed.  An exception that is not an Exception is not
    caught: it reaches the caller. *)
Theorem download_data_catches (yf_download : request → py DataFrame)
    (ticker : string) (start_date end_date : Z) :
  (∀ e, yf_download (ticker, start_date, end_date) = Raise e →
        is_Exception e = true →
        download_data yf_download ticker start_date end_date
        = ([st_error ("Failed to download data for " +:+ ticker
                      +:+ ". Error: " +:+ exn_text e)], Return None))
  ∧ (∀ data, yf_download (ticker, start_date, end_date) = Return data →
        ∃ data', download_data yf_download ticker start_date end_date
                 = ([], Return (Some data'))
                 ∧ bars data' = bars data)
  ∧ ((∀ e, yf_download (ticker, start_date, end_date) = Raise e →
           is_Exception e = true) →
     ∃ out result,
       download_data yf_download ticker start_date end_date
       = (out, Return result)
       ∧ (result = None
          ↔ ∃ e, yf_download (ticker, start_date, end_date) = Raise e))
  ∧ (∀ e, yf_download (ticker, start_date, end_date) = Raise e →
        is_Exception e = false →
        download_data yf_download ticker start_date end_date
        = ([], Raise e)).
Proof.
  split; [|split; [|split]];
    [| | |intros e He Hexc;
          by rewrite (download_data_raised _ _ _ _ e He), Hexc].
  - intros e He Hexc. by rewrite (download_data_raised _ _ _ _ e He), Hexc.
  - intros data Hd. rewrite (download_data_returned _ _ _ _ data Hd).
    eexists. split; [done|]. by destruct (is_MultiIndex (columns data)).
  - intros Hexc.
    destruct (yf_download (ticker, start_date, end_date)) as [data|e] eqn:Hyf.
    + rewrite (download_data_returned _ _ _ _ data Hyf).
      eexists _, _. split; [done|]. split; [done|]. by intros [e He].
    + rewrite (download_data_raised _ _ _ _ e Hyf), (Hexc e eq_refl).
      eexists _, _. split; [done|]. split; [by exists e | done].
Qed.

Lemma download_data_catches_witness :
  let failing : request → py DataFrame :=
    λ _, Raise (Exn "ConnectionError" "connection timed out" true) in
  let frame := mkFrame (MultiIndex [("Close", "AAPL"); ("Volume", "AAPL")])
                 [day 1 10 (Fin 500)] in
  download_data failing "AAPL" 0 10
  = ([st_error
        "Failed to download data for AAPL. Error: connection timed out"],
     Return None)
  ∧ (∃ data', download_data (λ _, Return frame) "AAPL" 0 10
              = ([], Return (Some data'))
              ∧ bars data' = [day 1 10 (Fin 500)])
  ∧ (∃ out result, download_data failing "AAPL" 0 10 = (out, Return result)
                   ∧ result = None)
  ∧ download_data (λ _, Raise (Exn "SystemExit" "0" false)) "AAPL" 0 10
    = ([], Raise (Exn "SystemExit" "0" false)).
Proof.
  intros failing frame. split; [|split; [|split]].
  - destruct (download_data_catches failing "AAPL" 0 10) as [H _].
    exact (H (Exn "ConnectionError" "connection timed out" true)
             eq_refl eq_refl).
  - destruct (download_data_catches (λ _, Return frame) "AAPL" 0 10)
      as (_ & H & _).
    exact (H frame eq_refl).
  - destruct (download_data_catches failing "AAPL" 0 10) as (_ & _ & H & _).
    destruct H as (out & result & Hrun & Hnone).
    { intros e [= <-]. reflexivity. }
    exists out, result. split; [exact Hrun|].
    apply Hnone. by eexists.
  - destruct (download_data_catches
                (λ _, Raise (Exn "SystemExit" "0" false)) "AAPL" 0 10)
      as (_ & _ & _ & H).
    exact (H (Exn "SystemExit" "0" false) eq_refl eq_refl).
Defined.

(** C10, as the spec words it, fails: [except Exception] does not
    catch an exception that is not an Exception.  The provider raises
    KeyboardInterrupt; [download_data] returns nothing, None or other,
    and the exception reaches the caller. *)
Lemma download_data_lets_interrupt_through :
  let interrupted : request → py DataFrame :=
    λ _, Raise (Exn "KeyboardInterrupt" "" false) in
  download_data interrupted "AAPL" 0 10
  = ([], Raise (Exn "KeyboardInterrupt" "" false))
  ∧ (∀ out, download_data interrupted "AAPL" 0 10 ≠ (out, Return None)).
Proof.
  intros interrupted. split; [reflexivity|].
  intros out H. discriminate H.
Qed.

Lemma cached_download_data_hit (yf : provider) (s : session)
    (ticker : string) (start_date end_date : Z) (data : option DataFrame) :
  cache s !! (ticker, start_date, end_date) = Some data →
  cached_download_data yf s ticker start_date end_date = (s, ret data).
Proof. intros H. unfold cached_download_data. by rewrite H. Qed.

Lemma cached_download_data_miss (yf : provider) (s : session)
    (ticker : string) (start_date end_date : Z) :
  cache s !! (ticker, start_date, end_date) = None →
  cached_download_data yf s ticker start_date end_date
  = let key := (ticker, start_date, end_date) in
    let run := download_data (yf (requests s)) ticker start_date end_date in
    match run.2 with
    | Return data =>
        (mkSession (<[key := data]> (cache s)) (requests s ++ [key]), run)
    | Raise _ => (mkSession (cache s) (requests s ++ [key]), run)
    end.
Proof.
  intros H. unfold cached_download_data. rewrite H. simpl.
  by destruct (download_data _ _ _ _) as [out [data|e]].
Qed.

(** C7, as the code has it.  A repeated fetch of the key of a fetch
    that returned gives the value of the first one and sends no request
    to the provider; with a key not yet cached, the two fetches send
    one request in all.  A download that failed with an Exception has
    returned None, and None is stored as any value is: the repeat gives
    None and sends no request. *)
Theorem cached_download_twice (yf : provider) (s : session)
    (ticker : string) (start_date end_date : Z) :
  let key := (ticker, start_date, end_date) in
  let first := cached_download_data yf s ticker start_date end_date in
  let second := cached_download_data yf first.1 ticker start_date end_date in
  (∀ data, first.2.2 = Return data →
     second.2.2 = Return data
     ∧ requests second.1 = requests first.1
     ∧ cache second.1 = cache first.1)
  ∧ (∀ data, cache s !! key = None → first.2.2 = Return data →
       requests second.1 = requests s ++ [key])
  ∧ (∀ e, cache s !! key = None →
       yf (requests s) key = Raise e → is_Exception e = true →
       first.2.2 = Return None
       ∧ cache first.1 !! key = Some None
       ∧ second.2.2 = Return None
       ∧ requests second.1 = requests s ++ [key]).
Proof.
  intros key first second.
  assert (Hhit : ∀ data, first.2.2 = Return data →
            cache first.1 !! key = Some data).
  { intros data. unfold first.
    destruct (cache s !! key) as [cached|] eqn:Hc.
    - rewrite (cached_download_data_hit _ _ _ _ _ cached Hc). simpl.
      by intros [= <-].
    - rewrite (cached_download_data_miss _ _ _ _ _ Hc). simpl.
      destruct (download_data _ _ _ _) as [out [data'|e]]; simpl.
      + intros [= <-]. apply lookup_insert_eq.
      + done. }
  assert (Hmiss : cache s !! key = None →
            requests first.1 = requests s ++ [key]).
  { intros Hc. unfold first.
    rewrite (cached_download_data_miss _ _ _ _ _ Hc). simpl.
    by destruct (download_data _ _ _ _) as [out [data'|e]]. }
  assert (Hsecond : ∀ data, first.2.2 = Return data →
            second = (first.1, ret data)).
  { intros data Hd. unfold second.
    by rewrite (cached_download_data_hit _ _ _ _ _ data (Hhit data Hd)). }
  split; [|split].
  - intros data Hd. by rewrite (Hsecond data Hd).
  - intros data Hc Hd. rewrite (Hsecond data Hd). by apply Hmiss.
  - intros e Hc He Hexc.
    assert (Hnone : first.2.2 = Return None).
    { unfold first. rewrite (cached_download_data_miss _ _ _ _ _ Hc).
      fold key. simpl.
      by rewrite (download_data_raised _ _ _ _ e He), Hexc. }
    split; [done|]. split; [by apply Hhit|].
    rewrite (Hsecond None Hnone). split; [done|]. by apply Hmiss.
Qed.

Lemma cached_download_twice_witness :
  let key : request := ("AAPL", 0%Z, 10%Z) in
  let failing : provider :=
    λ _ _, Raise (Exn "ConnectionError" "connection timed out" true) in
  let frame := mkFrame (Index ["Close"; "High"; "Low"; "Open"; "Volume"])
                 [day 1 10 (Fin 500)] in
  let answering : provider := λ _ _, Return frame in
  let failed := cached_download_data failing (mkSession ∅ []) "AAPL" 0 10 in
  let first := cached_download_data answering (mkSession ∅ []) "AAPL" 0 10 in
  let second := cached_download_data answering first.1 "AAPL" 0 10 in
  (failed.2.2 = Return None
   ∧ cache failed.1 !! key = Some None
   ∧ (cached_download_data failing failed.1 "AAPL" 0 10).2.2 = Return None
   ∧ requests (cached_download_data failing failed.1 "AAPL" 0 10).1
     = [] ++ [key])
  ∧ (second.2.2 = Return (Some frame)
     ∧ requests second.1 = requests first.1
     ∧ cache second.1 = cache first.1)
  ∧ requests second.1 = [] ++ [key].
Proof.
  intros key failing frame answering failed first second.
  split; [|split].
  - destruct (cached_download_twice failing (mkSession ∅ []) "AAPL" 0 10)
      as (_ & _ & H).
    apply (H (Exn "ConnectionError" "connection timed out" true));
      reflexivity.
  - destruct (cached_download_twice answering (mkSession ∅ []) "AAPL" 0 10)
      as (H & _).
    apply (H (Some frame)). reflexivity.
  - destruct (cached_download_twice answering (mkSession ∅ []) "AAPL" 0 10)
      as (_ & H & _).
    apply (H (Some frame)); reflexivity.
Defined.

(** C7, as the spec words it, fails in its last part: a download that
    failed is stored.  The provider fails on the first request and would
    answer the next one; the first fetch returns None, None is in the
    cache under the key, and the repeated fetch returns None without a
    second request. *)
Lemma failed_download_is_cached :
  let frame := mkFrame (Index ["Close"; "High"; "Low"; "Open"; "Volume"])
                 [day 1 10 (Fin 500)] in
  let yf : provider :=
    λ asked _, match asked with
               | [] => Raise (Exn "ConnectionError" "connection timed out" true)
               | _ => Return frame
               end in
  let first := cached_download_data yf (mkSession ∅ []) "AAPL" 0 10 in
  let second := cached_download_data yf first.1 "AAPL" 0 10 in
  first.2.2 = Return None
  ∧ cache first.1 !! ("AAPL", 0%Z, 10%Z) = Some None
  ∧ yf (requests first.1) ("AAPL", 0%Z, 10%Z) = Return frame
  ∧ second.2.2 = Return None
  ∧ requests second.1 = [("AAPL", 0%Z, 10%Z)].
Proof. repeat split; vm_compute; reflexivity. Qed.

(** ** The two ways a fetch brings nothing *)

Lemma analysis_nothing (ta : pandas_ta) (cfg : sidebar)
    (fetched : option DataFrame) :
  fetched = None ∨ (∃ frame, fetched = Some frame ∧ bars frame = []) →
  analysis ta cfg fetched
  = show (st_error ("Could not fetch data for '" +:+ ticker cfg
      +:+ "'. Please check the ticker symbol and the selected date range.")).
Proof.
  intros [->|(frame & -> & Hempty)]; [done|].
  unfold analysis, empty. by rewrite Hempty.
Qed.

(** C8, as the code has it.  Whether [download_data] returned None or
    a frame without rows, the script takes the same branch: it shows
    the one message "Could not fetch data for ..." and no chart, metric
    or table, and ends without raising.  In a run that sends the
    request, a failed download shows the message of [download_data]
    before it; a frame without rows shows nothing else. *)
Theorem fetch_nothing_same_branch (yf : provider) (ta : pandas_ta)
    (s : session) (cfg : sidebar) :
  let could_not :=
    st_error ("Could not fetch data for '" +:+ ticker cfg
      +:+ "'. Please check the ticker symbol and the selected date range.") in
  let key := (ticker cfg, start_date cfg, end_date cfg) in
  (∀ fetched,
     fetched = None ∨ (∃ frame, fetched = Some frame ∧ bars frame = []) →
     analysis ta cfg fetched = ([could_not], Return tt))
  ∧ (run_button cfg = true → ticker cfg ≠ "" → cache s !! key = None →
     (∀ frame, yf (requests s) key = Return frame → bars frame = [] →
        (main yf ta s cfg).2 = ([could_not], Return tt))
     ∧ (∀ e, yf (requests s) key = Raise e → is_Exception e = true →
        (main yf ta s cfg).2
        = ([st_error ("Failed to download data for " +:+ ticker cfg
                      +:+ ". Error: " +:+ exn_text e); could_not],
           Return tt))).
Proof.
  intros could_not key. split.
  - intros fetched H. by rewrite analysis_nothing.
  - intros Hrun Hticker Hc.
    assert (Hmain : (main yf ta s cfg).2
              = sbind (download_data (yf (requests s)) (ticker cfg)
                         (start_date cfg) (end_date cfg))
                      (analysis ta cfg)).
    { unfold main. rewrite Hrun. simpl negb. cbv iota.
      destruct (String.eqb_spec (ticker cfg) "") as [|_]; [done|].
      simpl negb. cbv iota.
      rewrite (cached_download_data_miss _ _ _ _ _ Hc). simpl.
      by destruct (download_data _ _ _ _) as [out [data|e]]. }
    split.
    + intros frame Hyf Hempty. rewrite Hmain.
      rewrite (download_data_returned _ _ _ _ frame Hyf). unfold sbind.
      rewrite analysis_nothing; [done|]. right. eexists. split; [done|].
      by destruct (is_MultiIndex (columns frame)).
    + intros e Hyf Hexc. rewrite Hmain.
      by rewrite (download_data_raised _ _ _ _ e Hyf), Hexc.
Qed.

Lemma fetch_nothing_same_branch_witness :
  let cfg := mkSidebar "AAPL" 0 10 20 50 20 14 true in
  let could_not :=
    st_error "Could not fetch data for 'AAPL'. Please check the ticker symbol and the selected date range." in
  let nothing : provider := λ _ _, Return (mkFrame (Index []) []) in
  let failing : provider :=
    λ _ _, Raise (Exn "ConnectionError" "connection timed out" true) in
  analysis spec_ta cfg None = ([could_not], Return tt)
  ∧ analysis spec_ta cfg (Some (mkFrame (Index []) []))
    = ([could_not], Return tt)
  ∧ (main nothing spec_ta (mkSession ∅ []) cfg).2 = ([could_not], Return tt)
  ∧ (main failing spec_ta (mkSession ∅ []) cfg).2
    = ([st_error
          "Failed to download data for AAPL. Error: connection timed out";
        could_not], Return tt).
Proof.
  intros cfg could_not nothing failing.
  destruct (fetch_nothing_same_branch nothing spec_ta (mkSession ∅ []) cfg)
    as [Hbranch Hempty].
  destruct (fetch_nothing_same_branch failing spec_ta (mkSession ∅ []) cfg)
    as [_ Hfailed].
  split; [|split; [|split]].
  - apply Hbranch. by left.
  - apply Hbranch. right. by eexists.
  - destruct Hempty as [H _]; [reflexivity | discriminate | reflexivity|].
    apply (H (mkFrame (Index []) [])); reflexivity.
  - destruct Hfailed as [_ H]; [reflexivity | discriminate | reflexivity|].
    apply (H (Exn "ConnectionError" "connection timed out" true));
      reflexivity.
Defined.

(** C8, as the spec words it, fails: for a frame without rows and for a
    failed download alike the script ends without raising, no
    EmptySeriesError and no FetchError, and what it does with the two
    values is the same. *)
Lemma empty_and_failed_alike :
  let cfg := mkSidebar "AAPL" 0 10 20 50 20 14 true in
  analysis spec_ta cfg (Some (mkFrame (Index []) []))
  = ([st_error "Could not fetch data for 'AAPL'. Please check the ticker symbol and the selected date range."],
     Return tt)
  ∧ analysis spec_ta cfg (Some (mkFrame (Index []) []))
    = analysis spec_ta cfg None
  ∧ (main (λ _ _, Return (mkFrame (Index []) [])) spec_ta
        (mkSession ∅ []) cfg).2.2 = Return tt
  ∧ (main (λ _ _, Raise (Exn "ConnectionError" "connection timed out" true))
        spec_ta (mkSession ∅ []) cfg).2.2 = Return tt.
Proof. repeat split; vm_compute; reflexivity. Qed.

(** ** Alignment on the indicators of section 4.2 *)

Lemma ema_notna (w : nat) (closes : list Q) (i : nat) (x : float) :
  ema w closes !! i = Some x →
  notna x = true ↔ (0 < w ∧ w ≤ length closes ∧ w ≤ i + 1)%nat.
Proof.
  intros Hx. assert (Hi : (i < length closes)%nat).
  { rewrite <- (length_ema w). by apply lookup_lt_Some in Hx. }
  destruct (decide (w = 0 ∨ length closes < w ∨ i + 1 < w)%nat) as [Hc|Hc].
  - rewrite ema_lookup_warmup in Hx by done. injection Hx as <-.
    split; [done | lia].
  - replace i with (w - 1 + (i + 1 - w))%nat in Hx by lia.
    rewrite ema_lookup_run in Hx by lia.
    destruct (_ !! (i + 1 - w)%nat) as [v|]; [|done].
    injection Hx as <-. split; [lia | done].
Qed.

Lemma rsi_notna (w : nat) (closes : list Q) (i : nat) (x : float) :
  rsi w closes !! i = Some x →
  notna x = true ↔ (0 < w ∧ w < length closes ∧ w ≤ i)%nat.
Proof.
  intros Hx. assert (Hi : (i < length closes)%nat).
  { rewrite <- (length_rsi w). by apply lookup_lt_Some in Hx. }
  destruct (decide (w = 0 ∨ length closes ≤ w ∨ i < w)%nat) as [Hc|Hc].
  - rewrite rsi_lookup_warmup in Hx by done. injection Hx as <-.
    split; [done | lia].
  - destruct (rsi_lookup_defined w closes i) as (g & l & _ & _ & Hv);
      [lia..|].
    rewrite Hv in Hx. injection Hx as <-. split; [lia | done].
Qed.

Lemma sma_persists (w : nat) (closes : list Q) :
  column_persists (sma w closes).
Proof.
  intros i j x y Hij Hx Hy.
  rewrite (sma_notna w closes i x Hx), (sma_notna w closes j y Hy). lia.
Qed.

Lemma ema_persists (w : nat) (closes : list Q) :
  column_persists (ema w closes).
Proof.
  intros i j x y Hij Hx Hy.
  rewrite (ema_notna w closes i x Hx), (ema_notna w closes j y Hy). lia.
Qed.

Lemma rsi_persists (w : nat) (closes : list Q) :
  column_persists (rsi w closes).
Proof.
  intros i j x y Hij Hx Hy.
  rewrite (rsi_notna w closes i x Hx), (rsi_notna w closes j y Hy). lia.
Qed.

Lemma length_on_closes (f : list Q → list float) (col : list float) :
  (∀ closes, length (f closes) = length closes) →
  length (on_closes f col) = length col.
Proof.
  intros Hf. unfold on_closes, finite_values.
  destruct (mapM _ col) as [closes|] eqn:Hm.
  - rewrite Hf. symmetry. by eapply length_mapM.
  - apply length_replicate.
Qed.

Lemma on_closes_persists (f : list Q → list float) (col : list float) :
  (∀ closes, column_persists (f closes)) →
  column_persists (on_closes f col).
Proof.
  intros Hf. unfold on_closes.
  destruct (finite_values col) as [closes|]; [apply Hf|].
  intros i j x y _ Hx _ Hna.
  apply lookup_replicate in Hx as [-> _]. done.
Qed.

Lemma at_row_persists (col : list float) (i j : nat) :
  column_persists col → (i ≤ j)%nat → (j < length col)%nat →
  notna (at_row col i) = true → notna (at_row col j) = true.
Proof.
  intros Hcol Hij Hj. unfold at_row.
  destruct (lookup_lt_is_Some_2 col j Hj) as [y Hy].
  destruct (lookup_lt_is_Some_2 col i) as [x Hx]; [lia|].
  rewrite Hx, Hy. simpl. by apply (Hcol i j).
Qed.

(** The four columns of section 4.2 stay defined once they are. *)
Lemma spec_indicators_persist (cfg : sidebar) (data : list Bar) :
  indicators_persist (append_indicators spec_ta cfg data).
Proof.
  intros i j r r' Hij Hi Hj.
  rewrite append_indicators_lookup in Hi, Hj.
  destruct (data !! i) as [b|]; [|done].
  destruct (data !! j) as [b'|] eqn:Hb'; [|done].
  injection Hi as <-. injection Hj as <-.
  assert (Hlen : (j < length (Close <$> data))%nat).
  { rewrite length_fmap. by apply lookup_lt_Some in Hb'. }
  unfold indicators_notna. simpl. rewrite !andb_true_iff.
  intros [[[H1 H2] H3] H4]. repeat split.
  - revert H1. apply at_row_persists; [|done|].
    + apply on_closes_persists, sma_persists.
    + by rewrite length_on_closes by apply length_sma.
  - revert H2. apply at_row_persists; [|done|].
    + apply on_closes_persists, sma_persists.
    + by rewrite length_on_closes by apply length_sma.
  - revert H3. apply at_row_persists; [|done|].
    + apply on_closes_persists, ema_persists.
    + by rewrite length_on_closes by apply length_ema.
  - revert H4. apply at_row_persists; [|done|].
    + apply on_closes_persists, rsi_persists.
    + by rewrite length_on_closes by apply length_rsi.
Qed.

(** With no fetched cell missing, [dropna] on those columns is the cut
    at the first row that has its four indicators. *)
Lemma spec_alignment_is_suffix (cfg : sidebar) (data : list Bar) :
  Forall (λ b, bar_notna b = true) data →
  dropna (append_indicators spec_ta cfg data)
  = drop (first_defined (append_indicators spec_ta cfg data))
         (append_indicators spec_ta cfg data).
Proof.
  intros Hbars. rewrite dropna_drop_first_defined.
  apply dropna_all, persist_drop_first_defined.
  - apply (Forall_fmap bar (λ b, bar_notna b = true)).
    by rewrite append_indicators_bars.
  - apply spec_indicators_persist.
Qed.

(** * More of the script *)

(** ** What [download_data] hands over *)


(** X1.  A frame [download_data] returns has flat column labels, the
    first level of the labels the provider gave, and the rows the
    provider gave; nothing is shown on the way. *)
Theorem download_data_flat (yf_download : request → py DataFrame)
    (ticker : string) (start_date end_date : Z)
    (out : list (element (list Row))) (data : DataFrame) :
  download_data yf_download ticker start_date end_date
  = (out, Return (Some data)) →
  out = []
  ∧ is_MultiIndex (columns data) = false
  ∧ ∃ raw, yf_download (ticker, start_date, end_date) = Return raw
           ∧ bars data = bars raw
           ∧ columns data
             = match columns raw with
               | MultiIndex names => Index (fst <$> names)
               | Index names => Index names
               end.
Proof.
  intros Hrun.
  destruct (yf_download (ticker, start_date, end_date)) as [raw|e] eqn:Hyf.
  - rewrite (download_data_returned _ _ _ _ raw Hyf) in Hrun.
    injection Hrun as <- <-. split; [done|].
    destruct raw as [[names|names] rows]; simpl; (split; [done|]).
    + by exists (mkFrame (Index names) rows).
    + by exists (mkFrame (MultiIndex names) rows).
  - rewrite (download_data_raised _ _ _ _ e Hyf) in Hrun.
    by destruct (is_Exception e).
Qed.

Lemma download_data_flat_witness :
  let raw := mkFrame (MultiIndex [("Close", "AAPL"); ("Volume", "AAPL")])
               [day 1 10 (Fin 500)] in
  ∃ data, download_data (λ _, Return raw) "AAPL" 0 10
          = ([], Return (Some data))
          ∧ columns data = Index ["Close"; "Volume"]
          ∧ bars data = [day 1 10 (Fin 500)].
Proof.
  intros raw. eexists. split; [reflexivity|].
  destruct (download_data_flat (λ _, Return raw) "AAPL" 0 10 [] _ eq_refl)
    as (_ & _ & raw' & Hraw & Hbars & Hcols).
  injection Hraw as <-. by split.
Defined.

(** X2.  [download_data] lets an exception through only when it is not
    an Exception, and then it is the one the provider raised and
    nothing has been shown; it shows an element only when it returns
    None, and then the one error message. *)
Theorem download_data_outcomes (yf_download : request → py DataFrame)
    (ticker : string) (start_date end_date : Z) :
  (∀ out e,
     download_data yf_download ticker start_date end_date = (out, Raise e) →
     is_Exception e = false ∧ out = []
     ∧ yf_download (ticker, start_date, end_date) = Raise e)
  ∧ (∀ out result,
     download_data yf_download ticker start_date end_date
     = (out, Return result) →
     (result = None ∧ ∃ e, yf_download (ticker, start_date, end_date) = Raise e
        ∧ is_Exception e = true
        ∧ out = [st_error ("Failed to download data for " +:+ ticker
                           +:+ ". Error: " +:+ exn_text e)])
     ∨ (is_Some result ∧ out = [])).
Proof.
  destruct (yf_download (ticker, start_date, end_date)) as [raw|e] eqn:Hyf.
  - rewrite (download_data_returned _ _ _ _ raw Hyf). split.
    + intros out e' [= ]. 
    + intros out result [= <- <-]. right. by split.
  - rewrite (download_data_raised _ _ _ _ e Hyf).
    destruct (is_Exception e) eqn:Hexc; split.
    + intros out e' [= ].
    + intros out result [= <- <-]. left. split; [done|]. by exists e.
    + intros out e' [= <- <-]. done.
    + intros out result [= ].
Qed.

Lemma download_data_outcomes_witness :
  let interrupted : request → py DataFrame :=
    λ _, Raise (Exn "KeyboardInterrupt" "" false) in
  download_data interrupted "AAPL" 0 10
  = ([], Raise (Exn "KeyboardInterrupt" "" false))
  ∧ is_Exception (Exn "KeyboardInterrupt" "" false) = false.
Proof.
  intros interrupted. split; [reflexivity|].
  destruct (download_data_outcomes interrupted "AAPL" 0 10) as [H _].
  by destruct (H [] (Exn "KeyboardInterrupt" "" false) eq_refl).
Defined.

(** ** [dropna] as an operation *)

(** X3.  [dropna] applied twice is [dropna] applied once; it never
    lengthens the frame, and leaves it as it is exactly when every cell
    of every row is defined. *)
Theorem dropna_idempotent (data : list Row) :
  dropna (dropna data) = dropna data
  ∧ (length (dropna data) ≤ length data)%nat
  ∧ (dropna data = data ↔ Forall (λ r, row_notna r = true) data).
Proof.
  split; [apply dropna_all, dropna_Forall|]. split.
  - apply sublist_length, dropna_sublist.
  - split; [|apply dropna_all].
    intros Heq. rewrite <- Heq. apply dropna_Forall.
Qed.

Lemma dropna_idempotent_witness :
  let data :=
    [ mkRow (day 2 11 (Fin 500)) (Fin (21 # 2)) (Fin (21 # 2)) (Fin 11) (Fin 100);
      mkRow (day 4 11 (Fin 700)) (Fin (23 # 2)) (Fin (23 # 2)) (Fin 11) (Fin 50) ] in
  dropna data = data.
Proof.
  intros data. apply (dropna_idempotent data). repeat constructor.
Defined.

(** ** The two charts *)

Lemma row_notna_cells (r : Row) :
  row_notna r = true →
  notna (Open (bar r)) = true ∧ notna (High (bar r)) = true
  ∧ notna (Low (bar r)) = true ∧ notna (Close (bar r)) = true
  ∧ notna (Volume (bar r)) = true ∧ notna (SMA_short r) = true
  ∧ notna (SMA_long r) = true ∧ notna (EMA r) = true
  ∧ notna (RSI r) = true.
Proof.
  unfold row_notna, bar_notna, indicators_notna.
  rewrite !andb_true_iff. tauto.
Qed.

Lemma column_notna (f : Row → float) (data : list Row) :
  (∀ r, row_notna r = true → notna (f r) = true) →
  Forall (λ r, row_notna r = true) data →
  length (f <$> data) = length data
  ∧ Forall (λ y, notna y = true) (f <$> data).
Proof.
  intros Hf Hdata. split; [apply length_fmap|].
  apply Forall_fmap. eapply Forall_impl; [exact Hdata|]. exact Hf.
Qed.

(** X4.  On the frame [dropna] has left, every trace of the price
    chart and of the RSI chart is drawn over the dates of all the rows,
    with one value per row in each of its series, and no value drawn is
    NaN. *)
Theorem charts_without_nan (ta : pandas_ta) (cfg : sidebar)
    (fetched : list Bar) :
  let data := dropna (append_indicators ta cfg fetched) in
  Forall (λ t, trace_x t = (λ r, date (bar r)) <$> data
               ∧ Forall (λ ys, length ys = length data
                               ∧ Forall (λ y, notna y = true) ys)
                        (trace_ys t))
         (traces (fig_price cfg data) ++ traces (fig_rsi cfg data)).
Proof.
  intros data.
  pose proof (dropna_Forall (append_indicators ta cfg fetched)) as Hdata.
  fold data in Hdata.
  assert (Hcol : ∀ f : Row → float,
            (∀ r, row_notna r = true → notna (f r) = true) →
            length (f <$> data) = length data
            ∧ Forall (λ y, notna y = true) (f <$> data)).
  { intros f Hf. by apply column_notna. }
  unfold fig_price, fig_rsi. simpl.
  repeat (constructor; [split; [done|]; simpl; repeat constructor|]);
    try (apply Hcol; intros r Hr; apply row_notna_cells in Hr; tauto).
  constructor.
Qed.

(** ** How the analysis ends *)

Lemma analysis_raise_inv (ta : pandas_ta) (cfg : sidebar)
    (fetched : option DataFrame) (e : exn) :
  (analysis ta cfg fetched).2 = Raise e →
  ∃ frame, fetched = Some frame ∧ bars frame ≠ []
    ∧ ((∃ name, missing_column ta cfg (bars frame) = Some name
                ∧ e = KeyError name)
       ∨ (missing_column ta cfg (bars frame) = None
          ∧ dropna (append_indicators ta cfg (bars frame)) = []
          ∧ e = IndexError "single positional indexer is out-of-bounds")).
Proof.
  destruct fetched as [frame|]; [|done].
  destruct (bars frame) as [|b rest] eqn:Hb.
  { rewrite analysis_nothing; [done|]. right. by exists frame. }
  assert (Hrows : bars frame ≠ []) by by rewrite Hb.
  rewrite (analysis_result ta cfg frame Hrows), Hb.
  intros He. exists frame. split; [done|]. split; [exact Hrows|].
  rewrite Hb.
  destruct (missing_column ta cfg (b :: rest)) as [name|].
  - injection He as <-. left. by exists name.
  - destruct (dropna (append_indicators ta cfg (b :: rest))); [|done].
    injection He as <-. by right.
Qed.

(** X5.  The analysis ends in an exception in two cases only, both on a
    fetched frame with rows: a column lines 88-97 read is not in the
    frame, and the exception is the KeyError of the first such column;
    or the four columns are in the frame and [dropna] leaves no row,
    and the exception is the IndexError of [iloc[0]].  In every other
    case it ends normally. *)
Theorem analysis_raises (ta : pandas_ta) (cfg : sidebar)
    (fetched : option DataFrame) :
  (∀ e, (analysis ta cfg fetched).2 = Raise e ↔
     ∃ frame, fetched = Some frame ∧ bars frame ≠ []
       ∧ ((∃ name, missing_column ta cfg (bars frame) = Some name
                   ∧ e = KeyError name)
          ∨ (missing_column ta cfg (bars frame) = None
             ∧ dropna (append_indicators ta cfg (bars frame)) = []
             ∧ e = IndexError "single positional indexer is out-of-bounds")))
  ∧ ((analysis ta cfg fetched).2 = Return tt
     ∨ ∃ e, (analysis ta cfg fetched).2 = Raise e).
Proof.
  split.
  - intros e. split; [apply analysis_raise_inv|].
    intros (frame & -> & Hrows & Hcase).
    rewrite (analysis_result ta cfg frame Hrows).
    destruct Hcase as [(name & -> & ->)|(-> & -> & ->)]; done.
  - destruct (analysis ta cfg fetched) as [out [[]|e]]; [by left|].
    right. by exists e.
Qed.

Lemma analysis_raises_witness :
  let cfg := mkSidebar "AAPL" 0 10 20 50 20 14 true in
  let labels := Index ["Close"; "High"; "Low"; "Open"; "Volume"] in
  let two := mkFrame labels [ day 1 10 (Fin 500); day 2 11 (Fin 500) ] in
  let gap := mkFrame labels (days 49 ++ [day 50 101 NaN]) in
  (analysis short_frame_ta cfg (Some two)).2 = Raise (KeyError "SMA_20")
  ∧ (analysis short_frame_ta cfg (Some gap)).2
    = Raise (IndexError "single positional indexer is out-of-bounds").
Proof.
  intros cfg labels two gap. split.
  - destruct (analysis_raises short_frame_ta cfg (Some two)) as [H _].
    apply H. exists two. split; [reflexivity|]. split; [discriminate|].
    left. by exists "SMA_20".
  - destruct (analysis_raises short_frame_ta cfg (Some gap)) as [H _].
    apply H. exists gap. split; [reflexivity|]. split; [discriminate|].
    right. split; [reflexivity|]. split; [by vm_compute | reflexivity].
Defined.

(** X6.  When the four indicator columns are in the frame and [dropna]
    leaves at least one row, the analysis ends normally; the start and
    end price it shows are the closes of the first and of the last kept
    row and are not NaN; the table and the export button carry exactly
    the kept rows; and no error message is shown. *)
Theorem analysis_of_kept_rows (ta : pandas_ta) (cfg : sidebar)
    (frame : DataFrame) (first final : Row) :
  let data := dropna (append_indicators ta cfg (bars frame)) in
  missing_column ta cfg (bars frame) = None →
  head data = Some first → last data = Some final →
  ∃ out,
    analysis ta cfg (Some frame) = (out, Return tt)
    ∧ st_metric "Start Price" (Dollars (Close (bar first))) ∈ out
    ∧ st_metric "End Price" (Dollars (Close (bar final))) ∈ out
    ∧ notna (Close (bar first)) = true
    ∧ notna (Close (bar final)) = true
    ∧ st_dataframe data ∈ out
    ∧ st_download_button "📥 Download Data as CSV" data
        (ticker cfg) (start_date cfg) (end_date cfg) ∈ out
    ∧ ∀ body, st_error body ∉ out.
Proof.
  intros data Hcols Hfirst Hfinal.
  assert (Hne : bars frame ≠ []).
  { intros Hnil. unfold data in Hfirst. by rewrite Hnil in Hfirst. }
  rewrite (analysis_appended ta cfg frame Hne Hcols). fold data.
  rewrite (summary_and_export_rows cfg data first final) by done.
  eexists. split; [reflexivity|].
  assert (Hkept : ∀ r, r ∈ data → notna (Close (bar r)) = true).
  { intros r Hr. apply elem_of_dropna in Hr as [_ Hr].
    apply row_notna_cells in Hr. tauto. }
  split; [do 4 apply list_elem_of_further; apply list_elem_of_here|].
  split; [do 5 apply list_elem_of_further; apply list_elem_of_here|].
  split.
  { apply Hkept. rewrite head_lookup in Hfirst.
    by eapply list_elem_of_lookup_2. }
  split.
  { apply Hkept. rewrite last_lookup in Hfinal.
    by eapply list_elem_of_lookup_2. }
  split; [do 9 apply list_elem_of_further; apply list_elem_of_here|].
  split; [do 10 apply list_elem_of_further; apply list_elem_of_here|].
  intros body Hin.
  repeat (apply elem_of_cons in Hin as [Hin|Hin]; [discriminate Hin|]).
  by apply elem_of_nil in Hin.
Qed.

Lemma analysis_of_kept_rows_witness :
  let cfg := mkSidebar "AAPL" 0 10 20 50 20 14 true in
  let frame := mkFrame (Index ["Close"; "High"; "Low"; "Open"; "Volume"])
                 (days 52) in
  ∃ out, analysis short_frame_ta cfg (Some frame) = (out, Return tt)
         ∧ st_metric "Start Price" (Dollars (Fin 101)) ∈ out
         ∧ st_metric "End Price" (Dollars (Fin 103)) ∈ out.
Proof.
  intros cfg frame.
  destruct (dropna (append_indicators short_frame_ta cfg (bars frame)))
    as [|first others] eqn:Hd; [by vm_compute in Hd|].
  destruct (last_is_Some (first :: others)) as [_ [final Hfinal]]; [done|].
  destruct (analysis_of_kept_rows short_frame_ta cfg frame first final)
    as (out & Hout & Hstart & Hend & _).
  { reflexivity. }
  { by rewrite Hd. }
  { by rewrite Hd. }
  exists out. split; [exact Hout|].
  assert (Hc : Close (bar first) = Fin 101 ∧ Close (bar final) = Fin 103).
  { vm_compute in Hd. injection Hd as <- <-.
    vm_compute in Hfinal. injection Hfinal as <-. by split. }
  destruct Hc as [Hc1 Hc2]. rewrite Hc1 in Hstart. rewrite Hc2 in Hend.
  by split.
Defined.

(** ** A run and the session *)

Lemma main_session (yf : provider) (ta : pandas_ta) (s : session)
    (cfg : sidebar) :
  (main yf ta s cfg).1
  = if run_button cfg && negb (String.eqb (ticker cfg) "")
    then (cached_download_data yf s (ticker cfg) (start_date cfg)
            (end_date cfg)).1
    else s.
Proof.
  unfold main. destruct (run_button cfg); simpl; [|done].
  destruct (String.eqb (ticker cfg) ""); simpl; [done|].
  by destruct (cached_download_data _ _ _ _ _).
Qed.

Lemma cached_download_data_session (yf : provider) (s : session)
    (ticker : string) (start_date end_date : Z) :
  let key := (ticker, start_date, end_date) in
  let s' := (cached_download_data yf s ticker start_date end_date).1 in
  (is_Some (cache s !! key) ∧ s' = s)
  ∨ (cache s !! key = None
     ∧ requests s' = requests s ++ [key]
     ∧ ((∃ data, cache s' = <[key := data]> (cache s))
        ∨ (cache s' = cache s
           ∧ ∃ e, yf (requests s) key = Raise e ∧ is_Exception e = false))).
Proof.
  intros key s'. unfold s'.
  destruct (cache s !! key) as [data|] eqn:Hc.
  - left. split; [done|].
    by rewrite (cached_download_data_hit _ _ _ _ _ data Hc).
  - right. split; [done|].
    rewrite (cached_download_data_miss _ _ _ _ _ Hc). fold key. cbv zeta.
    destruct (yf (requests s) key) as [raw|e] eqn:Hyf.
    + rewrite (download_data_returned _ _ _ _ raw Hyf). simpl.
      split; [done|]. left. by eexists.
    + rewrite (download_data_raised _ _ _ _ e Hyf).
      destruct (is_Exception e) eqn:Hexc; simpl; (split; [done|]).
      * left. by eexists.
      * right. split; [done|]. by exists e.
Qed.

(** X7.  A run never removes or changes a cached entry and touches no
    key but its own; it sends at most one request to the provider, and
    sends one only when the button is pressed, the ticker is not empty
    and the key is not cached. *)
Theorem main_keeps_cache (yf : provider) (ta : pandas_ta) (s : session)
    (cfg : sidebar) :
  let key := (ticker cfg, start_date cfg, end_date cfg) in
  let s' := (main yf ta s cfg).1 in
  (∀ k data, cache s !! k = Some data → cache s' !! k = Some data)
  ∧ (∀ k, k ≠ key → cache s' !! k = cache s !! k)
  ∧ (requests s' = requests s
     ∨ (run_button cfg = true ∧ ticker cfg ≠ "" ∧ cache s !! key = None
        ∧ requests s' = requests s ++ [key])).
Proof.
  intros key s'. subst key s'. rewrite main_session.
  destruct (run_button cfg) eqn:Hrun; simpl; [|by repeat split; [..|left]].
  destruct (String.eqb_spec (ticker cfg) "") as [Hempty|Hticker]; simpl;
    [by repeat split; [..|left]|].
  destruct (cached_download_data_session yf s (ticker cfg) (start_date cfg)
              (end_date cfg))
    as [[_ ->]|(Hc & Hreq & [[data Hcache]|[Hcache _]])].
  - by repeat split; [..|left].
  - rewrite Hcache. split; [|split].
    + intros k data0 Hk.
      destruct (decide (k = (ticker cfg, start_date cfg, end_date cfg)))
        as [->|Hne].
      * assert (Hno : Some data0 = None) by (rewrite <- Hk; exact Hc).
        discriminate Hno.
      * by rewrite lookup_insert_ne.
    + intros k Hne. by rewrite lookup_insert_ne.
    + by right.
  - rewrite Hcache. split; [done|]. split; [done|]. by right.
Qed.

Lemma main_keeps_cache_witness :
  let s := mkSession {[ ("MSFT", 0%Z, 10%Z) := None ]}
             [("MSFT", 0%Z, 10%Z)] in
  let yf : provider := λ _ _, Return (mkFrame (Index []) []) in
  let cfg := mkSidebar "AAPL" 0 10 20 50 20 14 true in
  cache (main yf spec_ta s cfg).1 !! ("MSFT", 0%Z, 10%Z) = Some None
  ∧ requests (main yf spec_ta s cfg).1
    = [("MSFT", 0%Z, 10%Z); ("AAPL", 0%Z, 10%Z)].
Proof.
  intros s yf cfg.
  destruct (main_keeps_cache yf spec_ta s cfg) as (Hkeep & _ & Hreq).
  split; [by apply Hkeep|].
  destruct Hreq as [Hsame|(_ & _ & _ & Hone)]; [by vm_compute in Hsame|].
  exact Hone.
Defined.





(** ** Reruns *)

Lemma cached_download_data_consistent (yf : provider) (s : session)
    (ticker : string) (start_date end_date : Z) :
  (∀ asked key e, yf asked key = Raise e → is_Exception e = true) →
  cache_consistent s →
  cache_consistent
    (cached_download_data yf s ticker start_date end_date).1.
Proof.
  intros Hyf [Hnodup Hdom].
  destruct (cached_download_data_session yf s ticker start_date end_date)
    as [[_ ->]|(Hc & Hreq & [[data Hcache]|[_ (e & He & Hexc)]])];
    [done| |by rewrite (Hyf _ _ _ He) in Hexc].
  assert (Hfresh : (ticker, start_date, end_date) ∉ requests s).
  { intros Hin. apply Hdom in Hin as [v Hv].
    assert (Hno : Some v = None) by (rewrite <- Hv; exact Hc).
    discriminate Hno. }
  split.
  - rewrite Hreq. apply NoDup_app. split; [done|]. split.
    + intros k Hk Hin. apply list_elem_of_singleton in Hin as ->. done.
    + apply NoDup_singleton.
  - intros k. rewrite Hreq, Hcache, elem_of_app, list_elem_of_singleton.
    destruct (decide (k = (ticker, start_date, end_date))) as [->|Hne].
    + rewrite lookup_insert_eq. split; [by right | by eexists].
    + rewrite lookup_insert_ne by done. rewrite Hdom. tauto.
Qed.

(** X9.  Over any sequence of runs, with a provider that raises
    Exceptions only, the session stays consistent: the cached keys are
    the requested keys and no key is requested twice.  From the empty
    session, the provider receives each key at most once. *)
Theorem runs_request_once (yf : provider) (ta : pandas_ta)
    (interactions : list sidebar) :
  (∀ asked key e, yf asked key = Raise e → is_Exception e = true) →
  (∀ s, cache_consistent s → cache_consistent (runs yf ta s interactions))
  ∧ NoDup (requests (runs yf ta (mkSession ∅ []) interactions)).
Proof.
  intros Hyf.
  assert (Hruns : ∀ s, cache_consistent s →
            cache_consistent (runs yf ta s interactions)).
  { induction interactions as [|cfg rest IH]; intros s Hs; simpl; [done|].
    apply IH. rewrite main_session.
    destruct (run_button cfg && negb (String.eqb (ticker cfg) "")); [|done].
    by apply cached_download_data_consistent. }
  split; [exact Hruns|].
  apply Hruns. split; simpl.
  - apply NoDup_nil_2.
  - intros key. rewrite lookup_empty. split.
    + by intros [? ?].
    + intros Hin. by apply elem_of_nil in Hin.
Qed.

Lemma runs_request_once_witness :
  let yf : provider :=
    λ asked _, match asked with
               | [] => Raise (Exn "ConnectionError" "connection timed out" true)
               | _ => Return (mkFrame (Index []) [])
               end in
  let aapl := mkSidebar "AAPL" 0 10 20 50 20 14 true in
  let msft := mkSidebar "MSFT" 0 10 20 50 20 14 true in
  requests (runs yf spec_ta (mkSession ∅ []) [aapl; msft; aapl; aapl; msft])
  = [("AAPL", 0%Z, 10%Z); ("MSFT", 0%Z, 10%Z)]
  ∧ NoDup (requests (runs yf spec_ta (mkSession ∅ [])
                       [aapl; msft; aapl; aapl; msft])).
Proof.
  intros yf aapl msft. split; [by vm_compute|].
  apply (runs_request_once yf spec_ta).
  intros asked key e. destruct asked; [|discriminate].
  by intros [= <-].
Defined.

(** ** The summary on short frames and on plain prices *)

Lemma length_pct_change_from (prev : float) (s : list float) :
  length (pct_change_from prev s) = length s.
Proof.
  revert prev. induction s as [|x s IH]; intros prev; simpl; [done|].
  by rewrite IH.
Qed.

Lemma pct_change_observations (s : list float) :
  (length (List.filter notna (pct_change s)) ≤ length s - 1)%nat.
Proof.
  destruct s as [|x s]; simpl; [done|].
  pose proof (List.filter_length_le notna (pct_change_from x s)) as Hle.
  rewrite length_pct_change_from in Hle. lia.
Qed.

Lemma std_few (s : list float) :
  (length (List.filter notna s) ≤ 1)%nat → std s = Sqrt NaN.
Proof.
  intros Hfew. unfold std.
  by replace (length (List.filter notna s) <=? 1)%nat with true
    by (symmetry; apply Nat.leb_le; lia).
Qed.

(** X10.  On a frame of one or two rows the summary is produced and its
    annualized volatility is NaN: [pct_change] leaves at most one
    observation, and the sample standard deviation needs two. *)
Theorem volatility_needs_three_rows (data : list Row) :
  data ≠ [] → (length data ≤ 2)%nat →
  ∃ s, performance_summary data = Return s
       ∧ annualized_volatility s = Sqrt NaN.
Proof.
  intros Hne Hlen.
  destruct data as [|first rest]; [done|].
  destruct (last_is_Some (first :: rest)) as [_ [final Hfinal]]; [done|].
  eexists. split.
  { by apply (performance_summary_rows (first :: rest) first final). }
  cbn [annualized_volatility]. rewrite std_few; [done|].
  pose proof (pct_change_observations
                ((λ r, Close (bar r)) <$> first :: rest)) as Hobs.
  rewrite length_fmap in Hobs. lia.
Qed.

Lemma volatility_needs_three_rows_witness :
  ∃ s, performance_summary
         [ mkRow (day 4 11 (Fin 700)) (Fin 11) (Fin 11) (Fin 11) (Fin 50);
           mkRow (day 5 13 (Fin 700)) (Fin 12) (Fin 12) (Fin 12) (Fin 60) ]
       = Return s
       ∧ annualized_volatility s = Sqrt NaN.
Proof.
  apply volatility_needs_three_rows; [discriminate | simpl; lia].
Defined.

Section PlainPrices.
Local Open Scope Q_scope.

Lemma fsum_Fin (vs : list Q) : fsum (Fin <$> vs) = Fin (Qsum vs).
Proof.
  induction vs as [|v vs IH]; [done|].
  change (fsum (Fin <$> v :: vs)) with (fadd (Fin v) (fsum (Fin <$> vs))).
  by rewrite IH.
Qed.

Lemma filter_notna_Fin (vs : list Q) :
  List.filter notna (Fin <$> vs) = Fin <$> vs.
Proof.
  induction vs as [|v vs IH]; [done|].
  rewrite fmap_cons. cbn [List.filter notna isna negb]. by rewrite IH.
Qed.

Lemma Qeq_bool_nonzero (q : Q) : ¬ q == 0 → Qeq_bool q 0 = false.
Proof.
  intros Hq. destruct (Qeq_bool q 0) eqn:H; [|done].
  by apply Qeq_bool_iff in H.
Qed.

Lemma Qneg_bool_nonneg (q : Q) : 0 <= q → Qneg_bool q = false.
Proof.
  intros Hq. unfold Qneg_bool. apply Qle_bool_iff in Hq. by rewrite Hq.
Qed.

Lemma Qnat_pos (n : nat) : (0 < n)%nat → 0 < Qnat n.
Proof. intros Hn. unfold Qnat, Qlt. simpl. lia. Qed.

Lemma Qnat_S (n : nat) : Qnat (S n) == Qnat n + 1.
Proof.
  unfold Qnat. rewrite Nat2Z.inj_succ, <- Z.add_1_r.
  by rewrite inject_Z_plus.
Qed.

Lemma Qsum_const (m : Q) (vs : list Q) :
  Forall (λ q, q == m) vs → Qsum vs == Qnat (length vs) * m.
Proof.
  induction 1 as [|v vs Hv _ IH].
  - simpl. unfold Qnat. simpl. ring.
  - change (Qsum (v :: vs)) with (v + Qsum vs).
    change (length (v :: vs)) with (S (length vs)).
    rewrite Qnat_S, Hv, IH. ring.
Qed.

Lemma Qsquare_nonneg (x : Q) : 0 <= x * x.
Proof.
  destruct (Qlt_le_dec x 0) as [Hx|Hx].
  - assert (Heq : x * x == (- x) * (- x)) by ring.
    rewrite Heq. apply Qmult_le_0_compat; lra.
  - by apply Qmult_le_0_compat.
Qed.

Lemma Qsum_squares_nonneg (m : Q) (vs : list Q) :
  0 <= Qsum ((λ q, (q + - m) * (q + - m)) <$> vs).
Proof.
  apply Qsum_nonneg, Forall_fmap, Forall_true. intros q.
  apply Qsquare_nonneg.
Qed.

(** The percentage changes of a column of numbers other than 0. *)
Lemma pct_change_from_Fin (p : Q) (qs : list Q) :
  Forall (λ q, ¬ q == 0) (p :: qs) →
  pct_change_from (Fin p) (Fin <$> qs)
  = Fin <$> zip_with (λ prev cur, cur / prev + - (1)) (p :: qs) qs.
Proof.
  revert p. induction qs as [|q qs IH]; intros p Hnz; [done|].
  apply Forall_cons in Hnz as [Hp Hnz].
  change (pct_change_from (Fin p) (Fin <$> q :: qs))
    with (fsub (fdiv (Fin q) (Fin p)) (Fin 1)
          :: pct_change_from (Fin q) (Fin <$> qs)).
  rewrite (IH q Hnz). unfold fdiv. rewrite (Qeq_bool_nonzero p Hp).
  reflexivity.
Qed.

Lemma fdiv_Fin (a b : Q) : ¬ b == 0 → fdiv (Fin a) (Fin b) = Fin (a / b).
Proof. intros Hb. unfold fdiv. by rewrite (Qeq_bool_nonzero b Hb). Qed.

Lemma squares_Fin (m : Q) (vs : list Q) :
  (λ x, fmul (fsub x (Fin m)) (fsub x (Fin m))) <$> (Fin <$> vs)
  = Fin <$> ((λ q, (q + - m) * (q + - m)) <$> vs).
Proof. by rewrite <- !list_fmap_compose. Qed.

(** The standard deviation of at least two numbers. *)
Lemma std_Fin (vs : list Q) :
  (2 ≤ length vs)%nat →
  std (Fin <$> vs)
  = Sqrt (Fin (Qsum ((λ q, (q + - (Qsum vs / Qnat (length vs)))
                           * (q + - (Qsum vs / Qnat (length vs)))) <$> vs)
               / Qnat (length vs - 1))).
Proof.
  intros Hlen. unfold std.
  rewrite filter_notna_Fin, length_fmap.
  replace (length vs <=? 1)%nat with false
    by (symmetry; apply Nat.leb_gt; lia).
  rewrite (fsum_Fin vs). unfold of_nat.
  fold (Qnat (length vs)). fold (Qnat (length vs - 1)).
  rewrite (fdiv_Fin (Qsum vs) (Qnat (length vs))).
  2:{ pose proof (Qnat_pos (length vs) ltac:(lia)). lra. }
  rewrite squares_Fin, fsum_Fin, fdiv_Fin.
  2:{ pose proof (Qnat_pos (length vs - 1) ltac:(lia)). lra. }
  unfold fsqrt. rewrite Qneg_bool_nonneg; [done|].
  apply Qdiv_nonneg; [apply Qsum_squares_nonneg | apply Qnat_nonneg].
Qed.

End PlainPrices.

Section PlainSummary.
Local Open Scope Q_scope.

(** The summary of a frame whose closes are numbers other than 0. *)
Lemma performance_summary_plain (data : list Row) (q0 qn : Q)
    (rest : list Q) :
  (λ r, Close (bar r)) <$> data = Fin <$> (q0 :: rest) →
  last (q0 :: rest) = Some qn →
  Forall (λ q, ¬ q == 0) (q0 :: rest) →
  performance_summary data
  = Return (mkSummary (Fin q0) (Fin qn) (Fin (qn / q0 + - (1)))
              (rmul (std (Fin <$> zip_with (λ prev cur, cur / prev + - (1))
                                    (q0 :: rest) rest))
                    (Sqrt (Fin 252)))).
Proof.
  intros Hcloses Hlast Hnz. unfold performance_summary.
  rewrite Hcloses.
  rewrite (iloc_first _ (Fin q0)) by done. cbn [Py.bind].
  rewrite (iloc_last _ (Fin qn)) by by rewrite fmap_last, Hlast.
  cbn [Py.bind].
  rewrite fdiv_Fin by by apply Forall_cons in Hnz as [? _].
  rewrite fmap_cons. cbn [pct_change].
  by rewrite (pct_change_from_Fin q0 rest Hnz).
Qed.

Lemma returns_of_constant (c : Q) (qs rest : list Q) :
  ¬ c == 0 → Forall (λ q, q == c) qs → Forall (λ q, q == c) rest →
  Forall (λ x, x == 0) (zip_with (λ prev cur, cur / prev + - (1)) qs rest).
Proof.
  intros Hc Hqs Hrest. apply Forall_lookup. intros i x Hx.
  apply lookup_zip_with_Some in Hx as (prev & cur & -> & Hprev & Hcur).
  assert (Hp : prev == c)
    by by eapply (proj1 (Forall_lookup _ _) Hqs).
  assert (Hq : cur == c)
    by by eapply (proj1 (Forall_lookup _ _) Hrest).
  rewrite Hp, Hq. field. done.
Qed.

Lemma variance_of_constant (vs : list Q) (n : Q) :
  Forall (λ x, x == 0) vs →
  Qsum ((λ q, (q + - (Qsum vs / Qnat (length vs)))
              * (q + - (Qsum vs / Qnat (length vs)))) <$> vs) / n == 0.
Proof.
  intros Hzero.
  assert (Hm : Qsum vs / Qnat (length vs) == 0).
  { unfold Qdiv. rewrite (Qsum_zero vs Hzero). ring. }
  assert (Hsq : Qsum ((λ q, (q + - (Qsum vs / Qnat (length vs)))
                            * (q + - (Qsum vs / Qnat (length vs)))) <$> vs)
                == 0).
  { apply Qsum_zero, Forall_fmap. eapply Forall_impl; [exact Hzero|].
    intros q Hq. simpl. rewrite Hq, Hm. ring. }
  unfold Qdiv. rewrite Hsq. ring.
Qed.

Lemma length_returns (q0 : Q) (rest : list Q) :
  length (zip_with (λ prev cur, cur / prev + - (1)) (q0 :: rest) rest)
  = length rest.
Proof. apply length_zip_with_r. cbn [length]. lia. Qed.

(** X12.  On a frame whose closes are all one number other than 0, the
    total return is 0 and, with three rows or more, the annualized
    volatility is the square root of 0. *)
Theorem summary_of_constant_close (data : list Row) (qs : list Q) (c : Q) :
  (λ r, Close (bar r)) <$> data = Fin <$> qs →
  Forall (λ q, q == c) qs → ¬ c == 0 →
  data ≠ [] →
  ∃ s ret,
    performance_summary data = Return s
    ∧ total_return s = Fin ret ∧ ret == 0
    ∧ ((3 ≤ length data)%nat →
       ∃ vol, annualized_volatility s = Sqrt (Fin vol) ∧ vol == 0).
Proof.
  intros Hcloses Hconst Hc Hne.
  assert (Hlen : length data = length qs).
  { apply (f_equal length) in Hcloses. by rewrite !length_fmap in Hcloses. }
  destruct qs as [|q0 rest].
  { destruct data; [done | discriminate Hlen]. }
  destruct (last_is_Some (q0 :: rest)) as [_ [qn Hlast]]; [done|].
  assert (Hnz : Forall (λ q, ¬ q == 0) (q0 :: rest)).
  { eapply Forall_impl; [exact Hconst|]. intros q Hq Hz. simpl in Hq.
    apply Hc. by rewrite <- Hq. }
  assert (Hq0 : q0 == c) by by apply Forall_cons in Hconst as [? _].
  assert (Hqn : qn == c).
  { eapply (proj1 (Forall_forall _ _) Hconst), last_Some_elem_of, Hlast. }
  eexists _, _. split; [by apply (performance_summary_plain data q0 qn rest)|].
  split; [reflexivity|]. split.
  - simpl. rewrite Hq0, Hqn. field. done.
  - intros H3. simpl in Hlen. cbn [annualized_volatility].
    rewrite std_Fin by (rewrite length_returns; lia).
    eexists. split; [reflexivity|].
    rewrite variance_of_constant; [ring|].
    apply (returns_of_constant c); [done..|].
    by apply Forall_cons in Hconst as [_ ?].
Qed.

Lemma summary_of_constant_close_witness :
  ∃ s ret vol,
    performance_summary
      [ mkRow (day 3 100 (Fin 650)) (Fin 100) (Fin 100) (Fin 100) (Fin 100);
        mkRow (day 4 100 (Fin 700)) (Fin 100) (Fin 100) (Fin 100) (Fin 100);
        mkRow (day 5 100 (Fin 700)) (Fin 100) (Fin 100) (Fin 100) (Fin 100) ]
    = Return s
    ∧ total_return s = Fin ret ∧ ret == 0
    ∧ annualized_volatility s = Sqrt (Fin vol) ∧ vol == 0.
Proof.
  destruct (summary_of_constant_close
              [ mkRow (day 3 100 (Fin 650)) (Fin 100) (Fin 100) (Fin 100)
                  (Fin 100);
                mkRow (day 4 100 (Fin 700)) (Fin 100) (Fin 100) (Fin 100)
                  (Fin 100);
                mkRow (day 5 100 (Fin 700)) (Fin 100) (Fin 100) (Fin 100)
                  (Fin 100) ]
              [100; 100; 100] 100)
    as (s & ret & Hs & Hret & Hzero & Hvol).
  { reflexivity. }
  { repeat constructor. }
  { discriminate. }
  { discriminate. }
  destruct Hvol as (vol & Hvol & Hv0); [simpl; lia|].
  by exists s, ret, vol.
Defined.

End PlainSummary.
